(** * IPL prediction dashboard (app.py): a shallow embedding

    The Flask application reads two static inputs (a CSV of predicted
    rankings and a pickled classifier), substitutes fixed fallback data
    when a read fails, draws two bar charts and serves four routes.

    The Python code is embedded as a state-and-exception monad over a
    [world] that holds what the process can observe: the state of the two
    input files as the library readers see them, the reaction of the
    plotting libraries, the files under [static/], the open matplotlib
    figures and the text printed so far. *)

From Stdlib Require Import ZArith List Bool Sorted.
From Stdlib Require Import Floats.PrimFloat.
From stdpp Require Import gmap strings list.

Set Warnings "-inexact-float,-register-all".
Local Open Scope string_scope.
Local Open Scope Z_scope.

(** ** Python exceptions *)

Module Py.

(** Classes below [Exception] that the libraries used by app.py raise. *)
Inductive error_class :=
  | OSError | FileNotFoundError | PermissionError | IsADirectoryError
  | NotADirectoryError | FileExistsError
  | ValueError | UnicodeError | UnicodeDecodeError | EmptyDataError | ParserError
  | TypeError | AttributeError | LookupError | KeyError | EOFError
  | PickleError | UnpicklingError | ImportError | ModuleNotFoundError
  | MemoryError | RuntimeError
  | UserError (name : string).

Inductive pyclass :=
  | BaseException | Exception | KeyboardInterrupt | SystemExit | GeneratorExit
  | ErrorClass (c : error_class).

#[global] Instance error_class_eq_dec : EqDecision error_class.
Proof. solve_decision. Defined.

#[global] Instance pyclass_eq_dec : EqDecision pyclass.
Proof. solve_decision. Defined.

(** The direct base of an error class; [None] stands for [Exception]. *)
Definition error_base (c : error_class) : option error_class :=
  match c with
  | FileNotFoundError | PermissionError | IsADirectoryError
  | NotADirectoryError | FileExistsError => Some OSError
  | UnicodeError | EmptyDataError | ParserError => Some ValueError
  | UnicodeDecodeError => Some UnicodeError
  | KeyError => Some LookupError
  | UnpicklingError => Some PickleError
  | ModuleNotFoundError => Some ImportError
  | _ => None
  end.

Definition base (c : pyclass) : option pyclass :=
  match c with
  | BaseException => None
  | Exception | KeyboardInterrupt | SystemExit | GeneratorExit => Some BaseException
  | ErrorClass e =>
      Some (match error_base e with Some p => ErrorClass p | None => Exception end)
  end.

Fixpoint issubclass_upto (fuel : nat) (c d : pyclass) : bool :=
  if bool_decide (c = d) then true
  else match fuel with
       | O => false
       | S fuel' =>
           match base c with
           | Some p => issubclass_upto fuel' p d
           | None => false
           end
       end.

(** No class of the hierarchy is more than five steps below [BaseException]. *)
Definition issubclass (c d : pyclass) : bool := issubclass_upto 5 c d.

Record exn := mk_exn { exn_class : pyclass; exn_msg : string }.

Definition error (c : error_class) (msg : string) : exn := mk_exn (ErrorClass c) msg.

(** [str(e)], as the f-strings of the handlers format it. *)
Definition str (e : exn) : string := exn_msg e.

Inductive outcome (A : Type) :=
  | Returned (a : A)
  | Raised (e : exn).
Arguments Returned {A} a.
Arguments Raised {A} e.

(** ** Python values that reach a template or a JSON response *)

Inductive pyval :=
  | PStr (s : string)
  | PInt (z : Z)
  | PFloat (f : float)
  | PList (l : list pyval)
  | PDict (d : list (string * pyval)).

(** ** dict: insertion ordered, assignment to a present key keeps its place *)

Definition dict (V : Type) := list (string * V).

Fixpoint dict_set {V} (d : dict V) (k : string) (v : V) : dict V :=
  match d with
  | [] => [(k, v)]
  | (k', v') :: d' =>
      if String.eqb k' k then (k', v) :: d' else (k', v') :: dict_set d' k v
  end.

Fixpoint dict_get {V} (d : dict V) (k : string) : option V :=
  match d with
  | [] => None
  | (k', v') :: d' => if String.eqb k' k then Some v' else dict_get d' k
  end.

(** A dict display or comprehension inserts its items from left to right. *)
Definition dict_of_items {V} (items : list (string * V)) : dict V :=
  fold_left (fun d kv => dict_set d (fst kv) (snd kv)) items [].

Definition keys {V} (d : dict V) : list string := map fst d.
Definition values {V} (d : dict V) : list V := map snd d.

(** [d[k]] *)
Definition getitem {V} (d : dict V) (k : string) : outcome V :=
  match dict_get d k with
  | Some v => Returned v
  | None => Raised (error KeyError k)
  end.

End Py.
Export Py.

(** ** pandas *)

Module Pd.

(** A frame: its column labels and its rows in source order, one cell per
    column. *)
Record DataFrame := mk_frame { columns : list string; rows : list (list pyval) }.

Definition row_at (i : nat) (cols : list (list pyval)) : list pyval :=
  flat_map (fun col => match nth_error col i with Some x => [x] | None => [] end) cols.

(** [pd.DataFrame({label: [cells], ...})]: the columns must agree in length. *)
Definition from_dict (data : dict (list pyval)) : outcome DataFrame :=
  match data with
  | [] => Returned (mk_frame [] [])
  | (_, c0) :: _ =>
      if forallb (fun kv => Nat.eqb (length (snd kv)) (length c0)) data
      then Returned (mk_frame (keys data)
                       (map (fun i => row_at i (values data)) (seq 0 (length c0))))
      else Raised (error ValueError "All arrays must be of the same length")
  end.

(** [df.iloc[:n]] *)
Definition iloc_to (n : nat) (df : DataFrame) : DataFrame :=
  mk_frame (columns df) (firstn n (rows df)).

(** [df.to_dict('records')] *)
Definition to_dict_records (df : DataFrame) : list pyval :=
  map (fun row => PDict (dict_of_items (combine (columns df) row))) (rows df).

End Pd.
Export Pd.

(** ** The loaded model object *)

(** An entry of [feature_importances_]: [float(x)] succeeds on a number and
    raises [TypeError] on anything else. *)
Inductive element :=
  | Number (f : float)
  | NotNumber.

Definition float_ (x : element) : outcome float :=
  match x with
  | Number f => Returned f
  | NotNumber => Raised (error TypeError "float() argument must be a string or a real number")
  end.

(** What [best_model.feature_importances_] finds on the unpickled object. *)
Inductive attribute :=
  | NoAttribute
  | NotIterable
  | Vector (v : list element).

Record model_obj := mk_model { feature_importances_ : attribute }.

(** ** matplotlib and seaborn *)

Inductive plt_call :=
  | plt_figure (width height : Z)
  | sns_barplot_data (x y : string) (data : DataFrame) (palette : list string)
  | sns_barplot (x : list pyval) (y : list string)
  | plt_title (label : string) (fontsize : Z)
  | plt_xticks (rotation : Z) (ha : string)
  | plt_tight_layout
  | plt_savefig (path : string)
  | plt_close.

(** A figure is known by the calls that drew on it. *)
Definition figure := list plt_call.

Inductive node :=
  | Directory
  | Image (fig : figure)
  | Other (content : string).

(** ** The world *)

(** The state of an input file as its reader sees it: it loads to a value,
    or the read fails with an error (missing file, no permission,
    malformed content, ...). Every failure of a read is an exception below
    [Exception]; [KeyboardInterrupt] and [SystemExit] are signals to the
    interpreter, not outcomes of a read, and no world produces them. *)
Inductive source (A : Type) :=
  | Loads (a : A)
  | Fails (c : error_class) (msg : string).
Arguments Loads {A} a.
Arguments Fails {A} c msg.

(** [plotting_failure] and [makedirs_failure] say how matplotlib, seaborn
    and the operating system react to a call in this world: [None] when the
    call goes through, otherwise the error it raises. [fs] holds the paths
    that exist, [figures] the open figures with the current one first. *)
Record world := mk_world {
  ranking_source : source DataFrame;
  model_artifact : source model_obj;
  plotting_failure : plt_call -> option (error_class * string);
  makedirs_failure : option (error_class * string);
  fs : gmap string node;
  figures : list figure;
  stdout : list string
}.

Definition set_fs (f : gmap string node) (w : world) : world :=
  mk_world (ranking_source w) (model_artifact w) (plotting_failure w)
    (makedirs_failure w) f (figures w) (stdout w).

Definition set_figures (g : list figure) (w : world) : world :=
  mk_world (ranking_source w) (model_artifact w) (plotting_failure w)
    (makedirs_failure w) (fs w) g (stdout w).

Definition set_stdout (o : list string) (w : world) : world :=
  mk_world (ranking_source w) (model_artifact w) (plotting_failure w)
    (makedirs_failure w) (fs w) (figures w) o.

(** ** The monad of Python statements *)

Definition M (A : Type) := world -> outcome A * world.

Definition ret {A} (a : A) : M A := fun w => (Returned a, w).

Definition bind {A B} (m : M A) (k : A -> M B) : M B :=
  fun w =>
    match m w with
    | (Returned a, w') => k a w'
    | (Raised e, w') => (Raised e, w')
    end.

Definition lift {A} (o : outcome A) : M A := fun w => (o, w).

(** Sequencing of steps that do not touch the world. *)
Definition and_then {A B} (o : outcome A) (k : A -> outcome B) : outcome B :=
  match o with
  | Returned a => k a
  | Raised e => Raised e
  end.

Declare Scope py_scope.
Delimit Scope py_scope with py.
Notation "x <- m ;; k" := (bind m (fun x => k))
  (at level 100, m at next level, right associativity) : py_scope.
Notation "m ;;; k" := (bind m (fun _ => k))
  (at level 100, right associativity) : py_scope.
Local Open Scope py_scope.

(** [try: body except Exception as e: handler]: an exception is caught when
    its class derives from [Exception]; what the body did before raising
    stays done. *)
Definition try_except_Exception {A} (body : M A) (handler : exn -> M A) : M A :=
  fun w =>
    match body w with
    | (Returned a, w') => (Returned a, w')
    | (Raised e, w') =>
        if issubclass (exn_class e) Exception then handler e w' else (Raised e, w')
    end.

Definition print (line : string) : M unit :=
  fun w => (Returned tt, set_stdout (stdout w ++ [line])%list w).

(** ** Library calls *)

Definition rankings_csv : string := "data/predicted_ipl_2025_rankings.csv".
Definition model_pkl : string := "model/best_model.pkl".

Definition read_source {A} (s : source A) : outcome A :=
  match s with
  | Loads a => Returned a
  | Fails c msg => Raised (error c msg)
  end.

Definition pd_read_csv (path : string) : M DataFrame :=
  fun w =>
    if String.eqb path rankings_csv then (read_source (ranking_source w), w)
    else (Raised (error FileNotFoundError path), w).

Definition joblib_load (path : string) : M model_obj :=
  fun w =>
    if String.eqb path model_pkl then (read_source (model_artifact w), w)
    else (Raised (error FileNotFoundError path), w).

Definition os_path_exists (path : string) : M bool :=
  fun w => (Returned (bool_decide (is_Some (fs w !! path))), w).

Definition os_makedirs (path : string) : M unit :=
  fun w =>
    match makedirs_failure w with
    | Some (c, msg) => (Raised (error c msg), w)
    | None =>
        if bool_decide (is_Some (fs w !! path))
        then (Raised (error FileExistsError path), w)
        else (Returned tt, set_fs (<[path := Directory]> (fs w)) w)
    end.

(** The effect of a plotting call that does not fail. *)
Definition draw (c : plt_call) (w : world) : world :=
  match c with
  | plt_figure _ _ => set_figures ([] :: figures w) w
  | plt_savefig path =>
      set_fs (<[path := Image (hd [] (figures w))]> (fs w)) w
  | plt_close => set_figures (tl (figures w)) w
  | _ =>
      match figures w with
      | [] => set_figures [[c]] w
      | fig :: figs => set_figures ((fig ++ [c])%list :: figs) w
      end
  end.

Definition plt (c : plt_call) : M unit :=
  fun w =>
    match plotting_failure w c with
    | Some (cls, msg) => (Raised (error cls msg), w)
    | None => (Returned tt, draw c w)
    end.

(** ** flask *)

Inductive response :=
  | Html (template : string) (context : dict pyval)
  | Json (body : pyval).

(** The templates are static files of the application; a rendered page is
    known by the template's name and the context handed to it. *)
Definition render_template (template : string) (context : dict pyval) : M response :=
  ret (Html template context).

(** A list serializes to a JSON array, a dict to a JSON object. *)
Definition jsonify (body : pyval) : M response := ret (Json body).

(** ** app.py *)

Module App.

(** The frame built in the handler of [load_predictions]. *)
Definition dummy_data : dict (list pyval) :=
  dict_of_items
    [ ("Team",
       [ PStr "Gujarat Titans"; PStr "Royal Challengers Bangalore"; PStr "Punjab Kings";
         PStr "Mumbai Indians"; PStr "Kolkata Knight Riders"; PStr "Rajasthan Royals";
         PStr "Lucknow Super Giants"; PStr "Delhi Capitals"; PStr "Chennai Super Kings";
         PStr "Sunrisers Hyderabad" ]);
      ("Result",
       [ PStr "Winner"; PStr "Runner-up"; PStr "Second Runner-up"; PStr "Eliminator";
         PStr "Other"; PStr "Other"; PStr "Other"; PStr "Other"; PStr "Other";
         PStr "Other" ]);
      ("points",
       [ PInt 10; PInt 8; PInt 8; PInt 6; PInt 6; PInt 2; PInt 2; PInt 2; PInt 0;
         PInt 0 ]) ].

Definition load_predictions_body : M DataFrame :=
  predictions <- pd_read_csv "data/predicted_ipl_2025_rankings.csv";;
  ret predictions.

Definition load_predictions : M DataFrame :=
  try_except_Exception load_predictions_body
    (fun e =>
       print ("Error loading predictions: " ++ str e);;;
       lift (from_dict dummy_data)).

Definition features : list string :=
  [ "batting_strength"; "bowling_strength"; "consistency";
    "historical_win_rate"; "head_to_head_win_rate"; "venue_win_rate" ].

(** [zip(features, feature_importances)]: pairs up to the shorter of the two. *)
Definition zip_ (names : list string) (a : attribute) : outcome (list (string * element)) :=
  match a with
  | Vector v => Returned (combine names v)
  | _ => Raised (error TypeError "zip argument #2 must support iteration")
  end.

(** [{feature: float(importance) for feature, importance in pairs}] *)
Fixpoint importance_comprehension (pairs : list (string * element)) (d : dict pyval)
  : outcome (dict pyval) :=
  match pairs with
  | [] => Returned d
  | (feature, importance) :: rest =>
      match float_ importance with
      | Returned f => importance_comprehension rest (dict_set d feature (PFloat f))
      | Raised e => Raised e
      end
  end.

Definition metrics_record (importance_dict : dict pyval) : dict pyval :=
  dict_of_items
    [ ("best_model", PStr "XGBoost");
      ("accuracy", PFloat 97.60);
      ("feature_importance", PDict importance_dict) ].

Definition fallback_importance : dict pyval :=
  dict_of_items
    [ ("batting_strength", PFloat 0.35);
      ("bowling_strength", PFloat 0.25);
      ("consistency", PFloat 0.15);
      ("historical_win_rate", PFloat 0.10);
      ("head_to_head_win_rate", PFloat 0.10);
      ("venue_win_rate", PFloat 0.05) ].

Definition getattr_ (m : model_obj) : outcome attribute :=
  match feature_importances_ m with
  | NoAttribute =>
      Raised (error AttributeError "object has no attribute 'feature_importances_'")
  | a => Returned a
  end.

Definition load_model_metrics_body : M (dict pyval) :=
  best_model <- joblib_load "model/best_model.pkl";;
  feature_importances <- lift (getattr_ best_model);;
  pairs <- lift (zip_ features feature_importances);;
  importance_dict <- lift (importance_comprehension pairs []);;
  ret (metrics_record importance_dict).

Definition load_model_metrics : M (dict pyval) :=
  try_except_Exception load_model_metrics_body
    (fun e =>
       print ("Error loading model metrics: " ++ str e);;;
       ret (metrics_record fallback_importance)).

Definition team_points_png : string := "static/team_points.png".
Definition feature_importance_png : string := "static/feature_importance.png".

Definition palette : list string :=
  ([ "gold"; "silver"; "#cd7f32"; "purple" ] ++ repeat "#1f77b4" 6)%list.

(** [importance.keys()] and [importance.values()] of a value read back from
    the metrics dict. *)
Definition keys_of (v : pyval) : outcome (list string) :=
  match v with
  | PDict d => Returned (keys d)
  | _ => Raised (error AttributeError "object has no attribute 'keys'")
  end.

Definition values_of (v : pyval) : outcome (list pyval) :=
  match v with
  | PDict d => Returned (values d)
  | _ => Raised (error AttributeError "object has no attribute 'values'")
  end.

Definition generate_visualizations_body : M unit :=
  present <- os_path_exists "static";;
  (if negb present then os_makedirs "static" else ret tt);;;
  predictions <- load_predictions;;
  plt (plt_figure 12 6);;;
  plt (sns_barplot_data "Team" "points" predictions palette);;;
  plt (plt_title "Predicted IPL 2025 Team Points" 16);;;
  plt (plt_xticks 45 "right");;;
  plt plt_tight_layout;;;
  plt (plt_savefig "static/team_points.png");;;
  plt plt_close;;;
  metrics <- load_model_metrics;;
  importance <- lift (getitem metrics "feature_importance");;
  plt (plt_figure 10 6);;;
  features <- lift (keys_of importance);;
  values <- lift (values_of importance);;
  plt (sns_barplot values features);;;
  plt (plt_title "Feature Importance in Prediction Model" 16);;;
  plt plt_tight_layout;;;
  plt (plt_savefig "static/feature_importance.png");;;
  plt plt_close.

Definition generate_visualizations : M unit :=
  try_except_Exception generate_visualizations_body
    (fun e => print ("Error generating visualizations: " ++ str e)).

(** [GET /] *)
Definition index : M response :=
  generate_visualizations;;;
  predictions <- load_predictions;;
  metrics <- load_model_metrics;;
  let top_teams := iloc_to 4 predictions in
  name <- lift (getitem metrics "best_model");;
  accuracy <- lift (getitem metrics "accuracy");;
  let model_metrics := dict_of_items [ ("name", name); ("accuracy", accuracy) ] in
  feature_importance <- lift (getitem metrics "feature_importance");;
  render_template "index.html"
    (dict_of_items
       [ ("predictions", PList (to_dict_records predictions));
         ("top_teams", PList (to_dict_records top_teams));
         ("model_metrics", PDict model_metrics);
         ("feature_importance", feature_importance) ]).

(** [GET /api/predictions] *)
Definition api_predictions : M response :=
  predictions <- load_predictions;;
  jsonify (PList (to_dict_records predictions)).

(** [GET /api/metrics] *)
Definition api_metrics : M response :=
  metrics <- load_model_metrics;;
  jsonify (PDict metrics).

(** [GET /about] *)
Definition about : M response :=
  render_template "about.html" [].

(** The statements of the [__main__] block that precede [app.run]. *)
Definition main_setup : M unit :=
  present <- os_path_exists "static";;
  (if negb present then os_makedirs "static" else ret tt);;;
  generate_visualizations.

End App.
Export App.

(** ** Vocabulary of the statements *)

(** The field [k] of a record of [to_dict('records')]. *)
Definition field (k : string) (record : pyval) : option pyval :=
  match record with
  | PDict d => dict_get d k
  | _ => None
  end.

(** Both chart images are present under [static/]. *)
Definition charts_exist (w : world) : Prop :=
  is_Some (fs w !! team_points_png) /\ is_Some (fs w !! feature_importance_png).

(** A computation raises only errors, that is exceptions whose class derives
    from [Exception]. *)
Definition raises_errors {A} (m : M A) : Prop :=
  forall w e w', m w = (Raised e, w') -> exists c msg, e = error c msg.

(** A computation always returns. *)
Definition returns {A} (m : M A) : Prop :=
  forall w, exists a w', m w = (Returned a, w').

(** A computation relates the world it starts in to the one it leaves. *)
Definition keeps {A} (R : world -> world -> Prop) (m : M A) : Prop :=
  forall w, R w (snd (m w)).

(** The inputs of the application: nothing app.py does changes them. *)
Definition same_inputs (w w' : world) : Prop :=
  ranking_source w' = ranking_source w /\
  model_artifact w' = model_artifact w /\
  plotting_failure w' = plotting_failure w /\
  makedirs_failure w' = makedirs_failure w.

Definition same_fs (w w' : world) : Prop := fs w' = fs w.

(** The model artifact cannot be turned into a metrics record: it does not
    load, the loaded object has no usable [feature_importances_], or one of
    the entries that get paired with a feature name is not a number. *)
Definition artifact_unusable (s : source model_obj) : Prop :=
  match s with
  | Fails _ _ => True
  | Loads m =>
      match feature_importances_ m with
      | NoAttribute | NotIterable => True
      | Vector v => In NotNumber (firstn 6 v)
      end
  end.

(** A pure step raises only errors. *)
Definition errors_only {A} (o : outcome A) : Prop :=
  match o with
  | Returned _ => True
  | Raised e => exists c msg, e = error c msg
  end.

(** Outside [static/] and the two chart images the files are as before. *)
Definition only_charts_change (w w' : world) : Prop :=
  forall path,
    path <> "static" -> path <> team_points_png -> path <> feature_importance_png ->
    fs w' !! path = fs w !! path.

(** What [savefig] writes for each chart: the calls made on the fresh
    figure since [plt.figure]. *)
Definition team_points_figure (predictions : DataFrame) : figure :=
  [ sns_barplot_data "Team" "points" predictions palette;
    plt_title "Predicted IPL 2025 Team Points" 16;
    plt_xticks 45 "right";
    plt_tight_layout ].

Definition feature_importance_figure (importance : dict pyval) : figure :=
  [ sns_barplot (values importance) (keys importance);
    plt_title "Feature Importance in Prediction Model" 16;
    plt_tight_layout ].

(** The frame that holds the rows of a ranking table cell by cell: columns
    Team and Result as text and points as integers. It is what
    [pd.read_csv] returns when it converts none of the text (see
    [read_ranking] below). *)
Definition ranking_frame (table : list (string * string * Z)) : DataFrame :=
  mk_frame ["Team"; "Result"; "points"]
    (map (fun row => [PStr (fst (fst row)); PStr (snd (fst row)); PInt (snd row)]) table).

(** ** pd.read_csv with its default arguments

    app.py calls [pd.read_csv(path)] and passes nothing else, so pandas
    applies its default conversions to every column of fields: the fields
    of [na_values] are read as missing (NaN), and a column is turned into
    numbers or booleans when all its fields allow it. A ranking file is
    given by its rows of fields under the header Team,Result,points, the
    points written as decimal integers. *)

Module ReadCsv.










End ReadCsv.
Export ReadCsv.



(** The integer cells of the column [points], in row order. *)
Definition points_of (df : DataFrame) : list Z :=
  flat_map (fun record => match field "points" record with
                          | Some (PInt z) => [z]
                          | _ => []
                          end) (to_dict_records df).

(** ** Sample worlds *)

(** A fresh checkout: neither input file is there, nothing was drawn yet. *)
Definition fresh_world : world :=
  mk_world
    (Fails FileNotFoundError "[Errno 2] No such file or directory: 'data/predicted_ipl_2025_rankings.csv'")
    (Fails FileNotFoundError "[Errno 2] No such file or directory: 'model/best_model.pkl'")
    (fun _ => None) None ∅ [] [].

(** A model trained on one feature more than app.py names. *)
Definition seven_feature_world : world :=
  mk_world
    (Fails FileNotFoundError "[Errno 2] No such file or directory: 'data/predicted_ipl_2025_rankings.csv'")
    (Loads (mk_model (Vector [ Number 0.3; Number 0.2; Number 0.2; Number 0.1;
                               Number 0.1; Number 0.05; Number 0.05 ])))
    (fun _ => None) None ∅ [] [].

(** Both inputs are in place: a three-row ranking and a six-feature model. *)
Definition deployed_world : world :=
  mk_world
    (Loads (ranking_frame [ ("Mumbai Indians", "Winner", 12);
                            ("Chennai Super Kings", "Runner-up", 10);
                            ("Delhi Capitals", "Other", 4) ]))
    (Loads (mk_model (Vector [ Number 0.3; Number 0.2; Number 0.2; Number 0.1;
                               Number 0.1; Number 0.1 ])))
    (fun _ => None) None ∅ [] [].

(** The application directory is read-only: [static/] cannot be created. *)
Definition read_only_world : world :=
  mk_world
    (Fails FileNotFoundError "[Errno 2] No such file or directory: 'data/predicted_ipl_2025_rankings.csv'")
    (Fails FileNotFoundError "[Errno 2] No such file or directory: 'model/best_model.pkl'")
    (fun _ => None)
    (Some (PermissionError, "[Errno 13] Permission denied: 'static'"))
    ∅ [] [].

(** The ranking file names its columns differently, so seaborn finds no
    column Team in it; [static/] is there but holds no chart yet. *)
Definition renamed_columns_world : world :=
  mk_world
    (Loads (mk_frame ["team"; "result"; "pts"]
              [ [PStr "Mumbai Indians"; PStr "Winner"; PInt 12];
                [PStr "Delhi Capitals"; PStr "Other"; PInt 4] ]))
    (Fails FileNotFoundError "[Errno 2] No such file or directory: 'model/best_model.pkl'")
    (fun c => match c with
              | sns_barplot_data _ _ _ _ =>
                  Some (ValueError, "Could not interpret value `Team` for `x`")
              | _ => None
              end)
    None
    {[ "static" := Directory ]} [] [].

(** ** Vocabulary of the further properties *)

(** Neither the plotting libraries nor the creation of [static/] fail. *)
Definition renders (w : world) : Prop :=
  (forall c, plotting_failure w c = None) /\
  (fs w !! "static" = None -> makedirs_failure w = None).

(** No path that exists is lost. *)
Definition fs_grows (w w' : world) : Prop :=
  forall path, is_Some (fs w !! path) -> is_Some (fs w' !! path).

(** The points chart is what it was. *)
Definition team_points_kept (w w' : world) : Prop :=
  fs w' !! team_points_png = fs w !! team_points_png.

(** Plotting calls applied one after the other. *)
Definition draws (calls : list plt_call) (w : world) : world :=
  fold_left (fun w' c => draw c w') calls w.

(** The calls of [generate_visualizations] for each chart, in source order. *)
Definition team_points_calls (predictions : DataFrame) : list plt_call :=
  [ plt_figure 12 6;
    sns_barplot_data "Team" "points" predictions palette;
    plt_title "Predicted IPL 2025 Team Points" 16;
    plt_xticks 45 "right";
    plt_tight_layout;
    plt_savefig "static/team_points.png";
    plt_close ].

Definition feature_importance_calls (importance : dict pyval) : list plt_call :=
  [ plt_figure 10 6;
    sns_barplot (values importance) (keys importance);
    plt_title "Feature Importance in Prediction Model" 16;
    plt_tight_layout;
    plt_savefig "static/feature_importance.png";
    plt_close ].

(** A model with a non-number after its six importances. *)
Definition trailing_entry_world : world :=
  mk_world
    (Fails FileNotFoundError "[Errno 2] No such file or directory: 'data/predicted_ipl_2025_rankings.csv'")
    (Loads (mk_model (Vector [ Number 0.3; Number 0.2; Number 0.2; Number 0.1;
                               Number 0.1; Number 0.05; NotNumber ])))
    (fun _ => None) None ∅ [] [].

(** A model trained on three features only. *)
Definition three_feature_world : world :=
  mk_world
    (Fails FileNotFoundError "[Errno 2] No such file or directory: 'data/predicted_ipl_2025_rankings.csv'")
    (Loads (mk_model (Vector [ Number 0.5; Number 0.3; Number 0.2 ])))
    (fun _ => None) None ∅ [] [].

(** The importance chart cannot be saved: its file is not writable. *)
Definition locked_chart_world : world :=
  mk_world
    (Loads (ranking_frame [ ("Mumbai Indians", "Winner", 12);
                            ("Chennai Super Kings", "Runner-up", 10);
                            ("Delhi Capitals", "Other", 4) ]))
    (Fails FileNotFoundError "[Errno 2] No such file or directory: 'model/best_model.pkl'")
    (fun c => match c with
              | plt_savefig path =>
                  if String.eqb path "static/feature_importance.png"
                  then Some (PermissionError,
                             "[Errno 13] Permission denied: 'static/feature_importance.png'")
                  else None
              | _ => None
              end)
    None
    {[ "static" := Directory ]} [] [].




(** * Proofs *)

(** ** The exception hierarchy *)

Lemma error_is_Exception (c : error_class) :
  issubclass (ErrorClass c) Exception = true.
Proof. destruct c; reflexivity. Qed.

Lemma interrupt_is_not_Exception :
  issubclass KeyboardInterrupt Exception = false /\
  issubclass SystemExit Exception = false /\
  issubclass GeneratorExit Exception = false.
Proof. repeat split; reflexivity. Qed.

Lemma issubclass_examples :
  issubclass (ErrorClass FileNotFoundError) (ErrorClass OSError) = true /\
  issubclass (ErrorClass UnicodeDecodeError) (ErrorClass ValueError) = true /\
  issubclass (ErrorClass KeyError) (ErrorClass ValueError) = false /\
  issubclass Exception (ErrorClass OSError) = false.
Proof. repeat split; reflexivity. Qed.

(** ** try/except *)

Lemma try_returned {A} (body : M A) handler w a w' :
  body w = (Returned a, w') ->
  try_except_Exception body handler w = (Returned a, w').
Proof. intros H. unfold try_except_Exception. now rewrite H. Qed.

Lemma try_caught {A} (body : M A) handler w c msg w' :
  body w = (Raised (error c msg), w') ->
  try_except_Exception body handler w = handler (error c msg) w'.
Proof.
  intros H. unfold try_except_Exception. rewrite H. cbn [exn_class error].
  now rewrite error_is_Exception.
Qed.

(** An exception outside [Exception] is not caught. *)
Lemma try_passes_interrupt {A} (body : M A) handler w msg w' :
  body w = (Raised (mk_exn KeyboardInterrupt msg), w') ->
  try_except_Exception body handler w = (Raised (mk_exn KeyboardInterrupt msg), w').
Proof. intros H. unfold try_except_Exception. now rewrite H. Qed.

Lemma bind_returned {A B} (m : M A) (k : A -> M B) w b w' :
  bind m k w = (Returned b, w') ->
  exists a w1, m w = (Returned a, w1) /\ k a w1 = (Returned b, w').
Proof.
  unfold bind. destruct (m w) as [[a|e] w1]; intros H; [eauto | discriminate].
Qed.

Lemma bind_raised {A B} (m : M A) (k : A -> M B) w e w' :
  bind m k w = (Raised e, w') ->
  m w = (Raised e, w') \/ exists a w1, m w = (Returned a, w1) /\ k a w1 = (Raised e, w').
Proof.
  unfold bind. destruct (m w) as [[a|e0] w1]; intros H; [eauto | left; congruence].
Qed.

(** ** load_predictions *)

Lemma load_predictions_body_eq w :
  load_predictions_body w = (read_source (ranking_source w), w).
Proof.
  unfold load_predictions_body, bind, pd_read_csv, ret. cbn.
  now destruct (ranking_source w).
Qed.

Lemma load_predictions_loads w df :
  ranking_source w = Loads df -> load_predictions w = (Returned df, w).
Proof.
  intros H. unfold load_predictions. apply try_returned.
  rewrite load_predictions_body_eq, H. reflexivity.
Qed.

Lemma load_predictions_fails w c msg :
  ranking_source w = Fails c msg ->
  load_predictions w =
    (from_dict dummy_data,
     set_stdout (stdout w ++ [("Error loading predictions: " ++ msg)%string])%list w).
Proof.
  intros H. unfold load_predictions.
  erewrite try_caught by (rewrite load_predictions_body_eq, H; reflexivity).
  reflexivity.
Qed.

(** C1. [load_predictions] never raises: whatever the state of the ranking
    source, it returns a frame; when the read succeeds that frame is the one
    read, and when the read fails in any way it is exactly the fixed table of
    ten teams with their result categories and points, and the reason is
    printed. *)
Theorem load_predictions_never_raises (w : world) :
  exists df w',
    load_predictions w = (Returned df, w') /\
    (forall df0, ranking_source w = Loads df0 -> df = df0) /\
    (forall c msg, ranking_source w = Fails c msg ->
       columns df = ["Team"; "Result"; "points"] /\
       rows df =
         [ [PStr "Gujarat Titans"; PStr "Winner"; PInt 10];
           [PStr "Royal Challengers Bangalore"; PStr "Runner-up"; PInt 8];
           [PStr "Punjab Kings"; PStr "Second Runner-up"; PInt 8];
           [PStr "Mumbai Indians"; PStr "Eliminator"; PInt 6];
           [PStr "Kolkata Knight Riders"; PStr "Other"; PInt 6];
           [PStr "Rajasthan Royals"; PStr "Other"; PInt 2];
           [PStr "Lucknow Super Giants"; PStr "Other"; PInt 2];
           [PStr "Delhi Capitals"; PStr "Other"; PInt 2];
           [PStr "Chennai Super Kings"; PStr "Other"; PInt 0];
           [PStr "Sunrisers Hyderabad"; PStr "Other"; PInt 0] ] /\
       length (to_dict_records df) = 10%nat /\
       stdout w' = (stdout w ++ [("Error loading predictions: " ++ msg)%string])%list).
Proof.
  destruct (ranking_source w) as [df0 | c msg] eqn:Hsrc.
  - exists df0, w. split; [now apply load_predictions_loads |].
    split; [congruence | discriminate].
  - eexists _, _. split; [rewrite (load_predictions_fails w c msg Hsrc); reflexivity |].
    split; [discriminate |].
    intros c' msg' [= <- <-]. repeat split; reflexivity.
Qed.

Lemma load_predictions_never_raises_witness :
  exists df w',
    load_predictions fresh_world = (Returned df, w') /\
    columns df = ["Team"; "Result"; "points"] /\
    length (to_dict_records df) = 10%nat.
Proof.
  destruct (load_predictions_never_raises fresh_world) as (df & w' & Hload & _ & Hfail).
  exists df, w'. split; [exact Hload |].
  destruct (Hfail FileNotFoundError
              "[Errno 2] No such file or directory: 'data/predicted_ipl_2025_rankings.csv'"
              eq_refl) as (Hcols & _ & Hlen & _).
  split; assumption.
Defined.

(** C10. The fallback table that [load_predictions] returns is already in
    ranking order: its points are 10, 8, 8, 6, 6, 2, 2, 2, 0, 0, never
    increasing from one row to the next, and the four rows that the
    dashboard slices off as top teams are the Winner, the Runner-up, the
    Second Runner-up and the Eliminator, in that order. *)
Theorem fallback_ranking_sorted (w : world) (c : error_class) (msg : string) :
  ranking_source w = Fails c msg ->
  exists df w',
    load_predictions w = (Returned df, w') /\
    points_of df = [10; 8; 8; 6; 6; 2; 2; 2; 0; 0] /\
    StronglySorted Z.ge (points_of df) /\
    map (field "Result") (to_dict_records (iloc_to 4 df)) =
      [ Some (PStr "Winner"); Some (PStr "Runner-up");
        Some (PStr "Second Runner-up"); Some (PStr "Eliminator") ].
Proof.
  intros Hsrc. rewrite (load_predictions_fails w c msg Hsrc).
  eexists _, _. split; [reflexivity |]. split; [reflexivity |]. split; [| reflexivity].
  change (StronglySorted Z.ge [10; 8; 8; 6; 6; 2; 2; 2; 0; 0]).
  repeat (constructor; [| repeat (constructor; [lia |]); constructor]).
  constructor.
Qed.

Lemma fallback_ranking_sorted_witness :
  ranking_source fresh_world =
    Fails FileNotFoundError
      "[Errno 2] No such file or directory: 'data/predicted_ipl_2025_rankings.csv'" /\
  exists df w',
    load_predictions fresh_world = (Returned df, w') /\
    points_of df = [10; 8; 8; 6; 6; 2; 2; 2; 0; 0] /\
    StronglySorted Z.ge (points_of df) /\
    map (field "Result") (to_dict_records (iloc_to 4 df)) =
      [ Some (PStr "Winner"); Some (PStr "Runner-up");
        Some (PStr "Second Runner-up"); Some (PStr "Eliminator") ].
Proof.
  split; [reflexivity |].
  apply (fallback_ranking_sorted fresh_world FileNotFoundError
           "[Errno 2] No such file or directory: 'data/predicted_ipl_2025_rankings.csv'").
  reflexivity.
Defined.

(** ** dict *)

Lemma dict_set_fresh {V} (d : dict V) k v :
  ~ In k (keys d) -> dict_set d k v = (d ++ [(k, v)])%list.
Proof.
  induction d as [| [k' v'] d IH]; cbn; intros Hk; [reflexivity |].
  destruct (String.eqb_spec k' k) as [-> | Hne]; [tauto |].
  rewrite IH; [reflexivity | tauto].
Qed.

Lemma lookup_map {A B} (f : A -> B) (l : list A) i x :
  l !! i = Some x -> map f l !! i = Some (f x).
Proof.
  revert i. induction l as [| y l IH]; intros [| i]; cbn; try discriminate.
  - now intros [= ->].
  - apply IH.
Qed.

Lemma dict_get_lookup {V} (d : dict V) i k v :
  NoDup (keys d) -> d !! i = Some (k, v) -> dict_get d k = Some v.
Proof.
  revert i. induction d as [| [k' v'] d IH]; intros i Hnd Hi; [discriminate |].
  cbn in Hnd. apply NoDup_cons in Hnd as [Hk' Hnd]. cbn.
  destruct i as [| i]; cbn in Hi.
  - injection Hi as -> ->. now rewrite String.eqb_refl.
  - destruct (String.eqb_spec k' k) as [-> | Hne]; [| eauto].
    exfalso. apply Hk'. apply list_elem_of_lookup. exists i.
    apply (lookup_map fst) in Hi. exact Hi.
Qed.

Lemma combine_lookup {A B} (l : list A) (k : list B) i a b :
  l !! i = Some a -> k !! i = Some b -> combine l k !! i = Some (a, b).
Proof.
  revert k i. induction l as [| x l IH]; intros [| y k] [| i]; cbn; try discriminate.
  - now intros [= ->] [= ->].
  - apply IH.
Qed.

Lemma combine_fst {A B} (l : list A) (k : list B) :
  map fst (combine l k) = firstn (length k) l.
Proof.
  revert k. induction l as [| x l IH]; intros [| y k]; cbn; [reflexivity .. |].
  now rewrite IH.
Qed.

Lemma combine_snd {A B} (l : list A) (k : list B) :
  map snd (combine l k) = firstn (length l) k.
Proof.
  revert k. induction l as [| x l IH]; intros [| y k]; cbn; [reflexivity .. |].
  now rewrite IH.
Qed.

(** ** The dict comprehension of load_model_metrics *)

Lemma float_raises x e : float_ x = Raised e -> x = NotNumber.
Proof. destruct x; [discriminate | reflexivity]. Qed.

Lemma comprehension_raises pairs :
  forall d, (exists e, importance_comprehension pairs d = Raised e) <->
            In NotNumber (map snd pairs).
Proof.
  induction pairs as [| [k x] pairs IH]; intros d; cbn.
  - split; [intros [e He]; discriminate | tauto].
  - destruct x as [f |]; cbn.
    + rewrite IH. split; [tauto | intros [H | H]; [discriminate | exact H]].
    + split; [tauto | eauto].
Qed.

Lemma comprehension_returns pairs :
  forall d d',
    importance_comprehension pairs d = Returned d' ->
    NoDup (keys d ++ map fst pairs) ->
    exists fl,
      Forall2 (fun x f => float_ x = Returned f) (map snd pairs) fl /\
      d' = (d ++ combine (map fst pairs) (map PFloat fl))%list.
Proof.
  induction pairs as [| [k x] pairs IH]; intros d d' Hd Hnd; cbn in *.
  - injection Hd as <-. exists []. split; [constructor | now rewrite app_nil_r].
  - destruct x as [f |]; cbn in Hd; [| discriminate].
    apply NoDup_app in Hnd as Hparts. destruct Hparts as (_ & Hfresh & _).
    assert (Hk : ~ In k (keys d)).
    { intros Hin. apply list_elem_of_In in Hin. apply (Hfresh k Hin). left. }
    rewrite (dict_set_fresh d k (PFloat f) Hk) in Hd.
    apply IH in Hd as (fl & Hfl & ->).
    + exists (f :: fl). split; [constructor; [reflexivity | exact Hfl] |].
      cbn. now rewrite <- app_assoc.
    + unfold keys in *. rewrite map_app. cbn. now rewrite <- app_assoc.
Qed.

(** ** load_model_metrics *)

Lemma load_model_metrics_body_eq w :
  load_model_metrics_body w =
    (and_then (read_source (model_artifact w)) (fun best_model =>
     and_then (getattr_ best_model) (fun feature_importances =>
     and_then (zip_ features feature_importances) (fun pairs =>
     and_then (importance_comprehension pairs []) (fun importance_dict =>
     Returned (metrics_record importance_dict))))), w).
Proof.
  unfold load_model_metrics_body, bind, joblib_load, lift, ret. cbn.
  destruct (read_source (model_artifact w)) as [m |]; cbn; [| reflexivity].
  destruct (getattr_ m) as [a |]; cbn; [| reflexivity].
  destruct (zip_ features a) as [pairs |]; cbn; [| reflexivity].
  now destruct (importance_comprehension pairs []).
Qed.

Lemma load_model_metrics_body_raises w :
  (exists e w1, load_model_metrics_body w = (Raised e, w1)) <->
  artifact_unusable (model_artifact w).
Proof.
  rewrite load_model_metrics_body_eq. unfold artifact_unusable, getattr_, zip_.
  destruct (model_artifact w) as [[a] | c msg]; cbn -[combine].
  2: { split; [tauto | eauto]. }
  destruct a as [| | v]; cbn -[combine]; try (split; [tauto | eauto]).
  change (firstn 6 v) with (firstn (length features) v).
  rewrite <- (combine_snd features v), <- (comprehension_raises _ []).
  destruct (importance_comprehension (combine features v) []) as [d | e]; cbn -[combine].
  - split; [intros (e & w1 & [=]) | intros [e [=]]].
  - split; eauto.
Qed.

Lemma load_model_metrics_body_errors : raises_errors load_model_metrics_body.
Proof.
  intros w e w1. rewrite load_model_metrics_body_eq. unfold getattr_, zip_.
  destruct (model_artifact w) as [[a] | c msg]; cbn -[combine]; [| intros [= <- <-]; eauto].
  destruct a as [| | v]; cbn -[combine]; try (intros [= <- <-]; eauto).
  destruct (importance_comprehension (combine features v) []) as [d | e0] eqn:Hc;
    cbn -[combine]; intros [= <- <-].
  clear -Hc. revert Hc. generalize (@nil (string * pyval)).
  induction (combine features v) as [| [k x] pairs IH]; cbn; intros d0; [discriminate |].
  destruct x; cbn; [apply IH | intros [= <-]; eauto].
Qed.

Lemma load_model_metrics_body_world w o w1 :
  load_model_metrics_body w = (o, w1) -> w1 = w.
Proof. rewrite load_model_metrics_body_eq. now intros [= _ <-]. Qed.

Lemma load_model_metrics_fallback w e w1 :
  load_model_metrics_body w = (Raised e, w1) ->
  load_model_metrics w =
    (Returned (metrics_record fallback_importance),
     set_stdout (stdout w ++ [("Error loading model metrics: " ++ str e)%string])%list w).
Proof.
  intros H. pose proof (load_model_metrics_body_world _ _ _ H) as ->.
  destruct (load_model_metrics_body_errors _ _ _ H) as (c & msg & ->).
  unfold load_model_metrics. now rewrite (try_caught _ _ _ _ _ _ H).
Qed.

(** Either way the record is a [metrics_record]. *)
Lemma load_model_metrics_record w :
  exists d w', load_model_metrics w = (Returned (metrics_record d), w') /\
               fs w' = fs w /\ same_inputs w w'.
Proof.
  destruct (load_model_metrics_body w) as [[r | e] w1] eqn:Hbody.
  - pose proof (load_model_metrics_body_world _ _ _ Hbody) as ->.
    unfold load_model_metrics. rewrite (try_returned _ _ _ _ _ Hbody).
    rewrite load_model_metrics_body_eq in Hbody.
    destruct (read_source (model_artifact w)) as [m |]; cbn in Hbody; [| discriminate].
    destruct (getattr_ m) as [a |]; cbn in Hbody; [| discriminate].
    destruct (zip_ features a) as [pairs |]; cbn in Hbody; [| discriminate].
    destruct (importance_comprehension pairs []) as [d |]; cbn in Hbody; [| discriminate].
    injection Hbody as <-. exists d, w. repeat split; reflexivity.
  - rewrite (load_model_metrics_fallback _ _ _ Hbody).
    eexists _, _. repeat split; reflexivity.
Qed.

Lemma api_metrics_eq w r w' :
  load_model_metrics w = (Returned r, w') ->
  api_metrics w = (Returned (Json (PDict r)), w').
Proof. intros H. unfold api_metrics, bind. now rewrite H. Qed.

(** C2. [load_model_metrics] never raises, and the Metrics API answers with
    its record; whenever the model artifact cannot be used (it does not
    load, or the loaded object has no usable importance vector) the record
    is the fixed one: XGBoost, 97.60, and the six preset importances. *)
Theorem load_model_metrics_never_raises (w : world) :
  exists r w',
    load_model_metrics w = (Returned r, w') /\
    api_metrics w = (Returned (Json (PDict r)), w') /\
    (artifact_unusable (model_artifact w) ->
       r = [ ("best_model", PStr "XGBoost");
             ("accuracy", PFloat 97.60);
             ("feature_importance",
              PDict [ ("batting_strength", PFloat 0.35);
                      ("bowling_strength", PFloat 0.25);
                      ("consistency", PFloat 0.15);
                      ("historical_win_rate", PFloat 0.10);
                      ("head_to_head_win_rate", PFloat 0.10);
                      ("venue_win_rate", PFloat 0.05) ]) ]).
Proof.
  destruct (load_model_metrics_body w) as [[r | e] w1] eqn:Hbody.
  - exists r, w1. assert (Hload : load_model_metrics w = (Returned r, w1)).
    { unfold load_model_metrics. now apply try_returned. }
    split; [exact Hload |]. split; [now apply api_metrics_eq |].
    intros Hbad. apply load_model_metrics_body_raises in Hbad as (e & w2 & He).
    congruence.
  - pose proof (load_model_metrics_fallback _ _ _ Hbody) as Hload.
    eexists _, _. split; [exact Hload |]. split; [now apply api_metrics_eq |].
    intros _. reflexivity.
Qed.

Lemma load_model_metrics_never_raises_witness :
  exists r w',
    load_model_metrics fresh_world = (Returned r, w') /\
    dict_get r "best_model" = Some (PStr "XGBoost") /\
    dict_get r "accuracy" = Some (PFloat 97.60).
Proof.
  destruct (load_model_metrics_never_raises fresh_world) as (r & w' & Hload & _ & Hbad).
  exists r, w'. split; [exact Hload |].
  rewrite (Hbad I). split; reflexivity.
Defined.

(** C6. Whether the artifact loads or not, the Metrics API answers with a
    mapping whose keys are exactly best_model, accuracy and
    feature_importance, each once. *)
Theorem api_metrics_keys (w : world) :
  exists r w',
    api_metrics w = (Returned (Json (PDict r)), w') /\
    load_model_metrics w = (Returned r, w') /\
    NoDup (keys r) /\
    forall k, In k (keys r) <->
              k = "best_model" \/ k = "accuracy" \/ k = "feature_importance".
Proof.
  destruct (load_model_metrics_record w) as (d & w' & Hload & _).
  exists (metrics_record d), w'. split; [now apply api_metrics_eq |].
  split; [exact Hload |]. cbn. split.
  - repeat constructor; rewrite ?list_elem_of_In; cbn; intuition discriminate.
  - intros k. intuition.
Qed.

Lemma features_NoDup : NoDup features.
Proof.
  unfold features.
  repeat (apply NoDup_cons; split;
          [rewrite list_elem_of_In; cbn; intuition discriminate |]).
  apply NoDup_nil_2.
Qed.

(** C3. When the body of [load_model_metrics] runs to its return, the
    artifact held an importance vector v, and the feature_importance mapping
    of the record has min(len v, 6) entries: for every position i below that
    bound, the i-th feature name is mapped to float(v[i]). A vector shorter
    or longer than six is thus cut to the shorter of the two sequences. *)
Theorem feature_importance_by_position (w : world) (r : dict pyval) (w' : world) :
  load_model_metrics_body w = (Returned r, w') ->
  exists m v d,
    model_artifact w = Loads m /\
    feature_importances_ m = Vector v /\
    load_model_metrics w = (Returned r, w') /\
    dict_get r "feature_importance" = Some (PDict d) /\
    length d = Nat.min (length v) 6 /\
    forall i, (i < Nat.min (length v) 6)%nat ->
      exists name x f,
        features !! i = Some name /\ v !! i = Some x /\
        float_ x = Returned f /\ dict_get d name = Some (PFloat f).
Proof.
  intros Hbody.
  assert (Hload : load_model_metrics w = (Returned r, w'))
    by (unfold load_model_metrics; now apply try_returned).
  rewrite load_model_metrics_body_eq in Hbody. unfold getattr_, zip_ in Hbody.
  destruct (model_artifact w) as [[a] | c msg] eqn:Hsrc; cbn -[combine] in Hbody;
    [| discriminate].
  destruct a as [| | v]; cbn -[combine] in Hbody; try discriminate.
  destruct (importance_comprehension (combine features v) []) as [d |] eqn:Hc;
    cbn -[combine] in Hbody; [| discriminate].
  injection Hbody as <- <-.
  assert (Hnd : NoDup (firstn (length v) features))
    by (eapply sublist_NoDup; [apply features_NoDup | apply sublist_take]).
  apply comprehension_returns in Hc as (fl & Hfl & ->);
    [| cbn -[combine]; now rewrite combine_fst].
  rewrite combine_snd in Hfl. rewrite combine_fst in Hload |- *. cbn [app] in Hload |- *.
  change (length features) with 6%nat in Hfl.
  pose proof (Forall2_length _ _ _ Hfl) as Hlen. rewrite length_take in Hlen.
  exists (mk_model (Vector v)), v, (combine (firstn (length v) features) (map PFloat fl)).
  repeat split; try reflexivity; try assumption.
  - rewrite length_combine, length_map, length_take, <- Hlen.
    change (length features) with 6%nat. lia.
  - intros i Hi.
    destruct (lookup_lt_is_Some_2 features i) as [name Hname];
      [change (length features) with 6%nat; lia |].
    destruct (lookup_lt_is_Some_2 v i) as [x Hx]; [lia |].
    assert (Hx6 : firstn 6 v !! i = Some x) by (rewrite lookup_take_lt; [exact Hx | lia]).
    destruct (Forall2_lookup_l _ _ _ _ _ Hfl Hx6) as (f & Hf & Hfloat).
    exists name, x, f. repeat split; try assumption.
    apply (dict_get_lookup _ i).
    + unfold keys. rewrite combine_fst. eapply sublist_NoDup; [exact Hnd | apply sublist_take].
    + apply combine_lookup; [rewrite lookup_take_lt; [exact Hname | lia] |].
      now apply lookup_map.
Qed.

Lemma feature_importance_by_position_witness :
  exists m v d,
    model_artifact seven_feature_world = Loads m /\
    feature_importances_ m = Vector v /\
    load_model_metrics seven_feature_world =
      (Returned (metrics_record
                   [ ("batting_strength", PFloat 0.3); ("bowling_strength", PFloat 0.2);
                     ("consistency", PFloat 0.2); ("historical_win_rate", PFloat 0.1);
                     ("head_to_head_win_rate", PFloat 0.1);
                     ("venue_win_rate", PFloat 0.05) ]),
       seven_feature_world) /\
    dict_get (metrics_record
                [ ("batting_strength", PFloat 0.3); ("bowling_strength", PFloat 0.2);
                  ("consistency", PFloat 0.2); ("historical_win_rate", PFloat 0.1);
                  ("head_to_head_win_rate", PFloat 0.1);
                  ("venue_win_rate", PFloat 0.05) ])
      "feature_importance" = Some (PDict d) /\
    length d = Nat.min (length v) 6 /\
    forall i, (i < Nat.min (length v) 6)%nat ->
      exists name x f,
        features !! i = Some name /\ v !! i = Some x /\
        float_ x = Returned f /\ dict_get d name = Some (PFloat f).
Proof.
  apply (feature_importance_by_position seven_feature_world). reflexivity.
Defined.

(** ** What every statement of app.py preserves *)

Section Keeps.
Variable R : world -> world -> Prop.
Hypothesis R_refl : forall w, R w w.
Hypothesis R_trans : forall a b c, R a b -> R b c -> R a c.

Lemma keeps_ret {A} (a : A) : keeps R (ret a).
Proof. intros w. apply R_refl. Qed.

Lemma keeps_lift {A} (o : outcome A) : keeps R (lift o).
Proof. intros w. apply R_refl. Qed.

Lemma keeps_bind {A B} (m : M A) (k : A -> M B) :
  keeps R m -> (forall a, keeps R (k a)) -> keeps R (bind m k).
Proof.
  intros Hm Hk w. unfold bind. specialize (Hm w).
  destruct (m w) as [[a | e] w1]; cbn [snd] in *; [| exact Hm].
  eapply R_trans; [exact Hm | apply Hk].
Qed.

Lemma keeps_try {A} (body : M A) handler :
  keeps R body -> (forall e, keeps R (handler e)) ->
  keeps R (try_except_Exception body handler).
Proof.
  intros Hb Hh w. unfold try_except_Exception. specialize (Hb w).
  destruct (body w) as [[a | e] w1]; cbn [snd] in *; [exact Hb |].
  destruct (issubclass (exn_class e) Exception); [| exact Hb].
  eapply R_trans; [exact Hb | apply Hh].
Qed.
End Keeps.

Lemma same_inputs_refl w : same_inputs w w.
Proof. repeat split. Qed.

Lemma same_inputs_trans a b c : same_inputs a b -> same_inputs b c -> same_inputs a c.
Proof. unfold same_inputs. intros (? & ? & ? & ?) (? & ? & ? & ?). repeat split; congruence. Qed.

Lemma same_fs_refl w : same_fs w w.
Proof. reflexivity. Qed.

Lemma same_fs_trans a b c : same_fs a b -> same_fs b c -> same_fs a c.
Proof. unfold same_fs. congruence. Qed.

Lemma only_charts_change_refl w : only_charts_change w w.
Proof. intros path _ _ _. reflexivity. Qed.

Lemma only_charts_change_trans a b c :
  only_charts_change a b -> only_charts_change b c -> only_charts_change a c.
Proof. intros Hab Hbc path H1 H2 H3. rewrite Hbc, Hab; auto. Qed.

Lemma same_fs_only_charts w w' : same_fs w w' -> only_charts_change w w'.
Proof. intros H path _ _ _. now rewrite H. Qed.

Lemma draw_inputs c w : same_inputs w (draw c w).
Proof. destruct c; cbn; try destruct (figures w); repeat split. Qed.

Lemma draw_artifact c w : model_artifact (draw c w) = model_artifact w.
Proof. apply draw_inputs. Qed.

Lemma draw_fs c w :
  (forall path, c <> plt_savefig path) -> fs (draw c w) = fs w.
Proof.
  intros Hc. destruct c; cbn; try (destruct (figures w); reflexivity).
  exfalso. now apply (Hc path).
Qed.

Lemma plt_cases c w :
  (exists cls msg, plt c w = (Raised (error cls msg), w)) \/
  plt c w = (Returned tt, draw c w).
Proof.
  unfold plt. destruct (plotting_failure w c) as [[cls msg] |]; eauto.
Qed.

Lemma os_makedirs_cases path w :
  (exists cls msg, os_makedirs path w = (Raised (error cls msg), w)) \/
  (fs w !! path = None /\
   os_makedirs path w = (Returned tt, set_fs (<[path := Directory]> (fs w)) w)).
Proof.
  unfold os_makedirs. destruct (makedirs_failure w) as [[cls msg] |]; [eauto |].
  destruct (fs w !! path) eqn:Hp; cbn; [eauto |].
  right. split; reflexivity.
Qed.

Create HintDb keeps.

Lemma print_inputs line : keeps same_inputs (print line).
Proof. intros w. repeat split. Qed.

Lemma print_fs line : keeps same_fs (print line).
Proof. intros w. reflexivity. Qed.

Lemma pd_read_csv_same R path : (forall w, R w w) -> keeps R (pd_read_csv path).
Proof. intros HR w. unfold pd_read_csv. destruct (String.eqb _ _); apply HR. Qed.

Lemma joblib_load_same R path : (forall w, R w w) -> keeps R (joblib_load path).
Proof. intros HR w. unfold joblib_load. destruct (String.eqb _ _); apply HR. Qed.

Lemma os_path_exists_same R path : (forall w, R w w) -> keeps R (os_path_exists path).
Proof. intros HR w. apply HR. Qed.

Lemma os_makedirs_inputs path : keeps same_inputs (os_makedirs path).
Proof.
  intros w. destruct (os_makedirs_cases path w) as [(c & msg & ->) | (_ & ->)];
    repeat split.
Qed.

Lemma plt_inputs c : keeps same_inputs (plt c).
Proof.
  intros w. destruct (plt_cases c w) as [(cls & msg & ->) | ->]; cbn;
    [repeat split | apply draw_inputs].
Qed.

Lemma plt_fs c : (forall path, c <> plt_savefig path) -> keeps same_fs (plt c).
Proof.
  intros Hc w. destruct (plt_cases c w) as [(cls & msg & ->) | ->]; cbn;
    [reflexivity | now apply draw_fs].
Qed.

#[local] Hint Resolve same_inputs_refl same_fs_refl only_charts_change_refl : keeps.
#[local] Hint Resolve print_inputs print_fs os_makedirs_inputs plt_inputs : keeps.
#[local] Hint Resolve pd_read_csv_same joblib_load_same os_path_exists_same : keeps.

(** Breaks a computation into its statements. *)
Ltac keeps_steps Hrefl Htrans :=
  repeat first
    [ apply (keeps_ret _ Hrefl)
    | apply (keeps_lift _ Hrefl)
    | apply (keeps_bind _ Htrans); [| intros ?]
    | apply (keeps_try _ Htrans); [| intros ?]
    | match goal with |- keeps _ (if ?b then _ else _) => destruct b end
    | solve [auto with keeps] ].

Lemma load_predictions_inputs : keeps same_inputs load_predictions.
Proof.
  unfold load_predictions, load_predictions_body.
  keeps_steps same_inputs_refl same_inputs_trans.
Qed.

Lemma load_predictions_fs : keeps same_fs load_predictions.
Proof.
  unfold load_predictions, load_predictions_body.
  keeps_steps same_fs_refl same_fs_trans.
Qed.

Lemma load_model_metrics_inputs : keeps same_inputs load_model_metrics.
Proof.
  unfold load_model_metrics, load_model_metrics_body.
  keeps_steps same_inputs_refl same_inputs_trans.
Qed.

Lemma load_model_metrics_fs : keeps same_fs load_model_metrics.
Proof.
  unfold load_model_metrics, load_model_metrics_body.
  keeps_steps same_fs_refl same_fs_trans.
Qed.

#[local] Hint Resolve load_predictions_inputs load_predictions_fs
  load_model_metrics_inputs load_model_metrics_fs : keeps.

Lemma generate_visualizations_inputs : keeps same_inputs generate_visualizations.
Proof.
  unfold generate_visualizations, generate_visualizations_body.
  keeps_steps same_inputs_refl same_inputs_trans.
Qed.

(** ** Only errors are raised, so every handler catches *)

Lemma raises_errors_ret {A} (a : A) : raises_errors (ret a).
Proof. intros w e w' [=]. Qed.

Lemma raises_errors_lift {A} (o : outcome A) : errors_only o -> raises_errors (lift o).
Proof. intros Ho w e w' [= -> _]. exact Ho. Qed.

Lemma raises_errors_bind {A B} (m : M A) (k : A -> M B) :
  raises_errors m -> (forall a, raises_errors (k a)) -> raises_errors (bind m k).
Proof.
  intros Hm Hk w e w' H. apply bind_raised in H as [H | (a & w1 & _ & H)].
  - exact (Hm _ _ _ H).
  - exact (Hk _ _ _ _ H).
Qed.

Lemma raises_errors_try {A} (body : M A) handler :
  raises_errors body -> (forall e, raises_errors (handler e)) ->
  raises_errors (try_except_Exception body handler).
Proof.
  intros Hb Hh w e w'. unfold try_except_Exception.
  destruct (body w) as [[a | e0] w1] eqn:Hbody; [intros [=] |].
  destruct (Hb _ _ _ Hbody) as (c & msg & ->). cbn [exn_class error].
  rewrite error_is_Exception. apply Hh.
Qed.

Lemma try_returns {A} (body : M A) handler :
  raises_errors body -> (forall e, returns (handler e)) ->
  returns (try_except_Exception body handler).
Proof.
  intros Hb Hh w. destruct (body w) as [[a | e] w1] eqn:Hbody.
  - exists a, w1. now apply try_returned.
  - destruct (Hb _ _ _ Hbody) as (c & msg & ->).
    rewrite (try_caught _ _ _ _ _ _ Hbody). apply Hh.
Qed.

Lemma returns_raises_errors {A} (m : M A) : returns m -> raises_errors m.
Proof. intros Hm w e w' H. destruct (Hm w) as (a & w1 & Ha). congruence. Qed.

Lemma print_returns line : returns (print line).
Proof. intros w. eexists _, _. reflexivity. Qed.

Lemma read_source_errors {A} (s : source A) : errors_only (read_source s).
Proof. destruct s; cbn; eauto. Qed.

Lemma pd_read_csv_errors path : raises_errors (pd_read_csv path).
Proof.
  intros w e w'. unfold pd_read_csv. destruct (String.eqb _ _); intros [= H _].
  - pose proof (read_source_errors (ranking_source w)) as Hs. now rewrite H in Hs.
  - subst e. eauto.
Qed.

Lemma os_path_exists_errors path : raises_errors (os_path_exists path).
Proof. intros w e w' [=]. Qed.

Lemma os_makedirs_errors path : raises_errors (os_makedirs path).
Proof.
  intros w e w' H.
  destruct (os_makedirs_cases path w) as [(c & msg & Hc) | (_ & Hc)];
    rewrite Hc in H; [injection H as He _; subst e; eauto | discriminate].
Qed.

Lemma plt_errors c : raises_errors (plt c).
Proof.
  intros w e w' H.
  destruct (plt_cases c w) as [(cls & msg & Hc) | Hc]; rewrite Hc in H;
    [injection H as He _; subst e; eauto | discriminate].
Qed.

Lemma getitem_errors {V} (d : dict V) k : errors_only (getitem d k).
Proof. unfold getitem. destruct (dict_get d k); cbn; eauto. Qed.

Lemma keys_of_errors v : errors_only (keys_of v).
Proof. destruct v; cbn; eauto. Qed.

Lemma values_of_errors v : errors_only (values_of v).
Proof. destruct v; cbn; eauto. Qed.

Lemma load_predictions_returns : returns load_predictions.
Proof.
  intros w. destruct (ranking_source w) as [df | c msg] eqn:Hsrc.
  - exists df, w. now apply load_predictions_loads.
  - rewrite (load_predictions_fails _ _ _ Hsrc). eexists _, _. reflexivity.
Qed.

Lemma load_model_metrics_returns : returns load_model_metrics.
Proof.
  intros w. destruct (load_model_metrics_record w) as (d & w' & H & _). eauto.
Qed.

Create HintDb raises.
#[local] Hint Resolve os_path_exists_errors os_makedirs_errors plt_errors
  pd_read_csv_errors getitem_errors keys_of_errors values_of_errors : raises.

Ltac raises_steps :=
  repeat first
    [ apply raises_errors_ret
    | apply raises_errors_lift
    | apply raises_errors_bind; [| intros ?]
    | match goal with |- raises_errors (if ?b then _ else _) => destruct b end
    | apply returns_raises_errors; first [apply load_predictions_returns
                                         | apply load_model_metrics_returns]
    | solve [auto with raises] ].

Lemma generate_visualizations_body_errors : raises_errors generate_visualizations_body.
Proof. unfold generate_visualizations_body. raises_steps. Qed.

Lemma generate_visualizations_returns w :
  exists w', generate_visualizations w = (Returned tt, w').
Proof.
  destruct (try_returns generate_visualizations_body
              (fun e => print ("Error generating visualizations: " ++ str e))
              generate_visualizations_body_errors
              (fun e => print_returns _) w) as ([] & w' & H).
  now exists w'.
Qed.

(** ** The dashboard *)

(** The frame that [load_predictions] returns depends on the ranking source
    alone. *)
Lemma load_predictions_same_source w w' :
  ranking_source w' = ranking_source w ->
  fst (load_predictions w') = fst (load_predictions w).
Proof.
  intros H. destruct (ranking_source w) as [df | c msg] eqn:Hsrc.
  - now rewrite (load_predictions_loads w df), (load_predictions_loads w' df).
  - now rewrite (load_predictions_fails w c msg), (load_predictions_fails w' c msg).
Qed.

Lemma index_eq w :
  exists w1 predictions w2 importance w3,
    generate_visualizations w = (Returned tt, w1) /\
    load_predictions w1 = (Returned predictions, w2) /\
    load_model_metrics w2 = (Returned (metrics_record importance), w3) /\
    index w =
      (Returned
         (Html "index.html"
            [ ("predictions", PList (to_dict_records predictions));
              ("top_teams", PList (to_dict_records (iloc_to 4 predictions)));
              ("model_metrics",
               PDict [ ("name", PStr "XGBoost"); ("accuracy", PFloat 97.60) ]);
              ("feature_importance", PDict importance) ]),
       w3).
Proof.
  destruct (generate_visualizations_returns w) as (w1 & Hgen).
  destruct (load_predictions_returns w1) as (predictions & w2 & Hpred).
  destruct (load_model_metrics_record w2) as (importance & w3 & Hmet & _).
  exists w1, predictions, w2, importance, w3. repeat split; try assumption.
  unfold index, bind. rewrite Hgen, Hpred, Hmet. reflexivity.
Qed.

Lemma to_dict_records_iloc n df :
  to_dict_records (iloc_to n df) = firstn n (to_dict_records df).
Proof. unfold to_dict_records, iloc_to. cbn. now rewrite firstn_map. Qed.

(** C4. In every world the top teams that the dashboard hands to its page
    are the first four records of the array that the Predictions API
    returns in that same world, be the data real or the fallback. *)
Theorem top_teams_first_four (w : world) :
  exists recs w1 context w2,
    api_predictions w = (Returned (Json (PList recs)), w1) /\
    index w = (Returned (Html "index.html" context), w2) /\
    dict_get context "predictions" = Some (PList recs) /\
    dict_get context "top_teams" = Some (PList (firstn 4 recs)).
Proof.
  destruct (index_eq w) as (w1 & predictions & w2 & importance & w3 & Hgen & Hpred & _ & Hindex).
  destruct (load_predictions_returns w) as (df & w' & Hload).
  assert (Hsame : predictions = df).
  { pose proof (generate_visualizations_inputs w) as (Hsrc & _).
    rewrite Hgen in Hsrc. cbn [snd] in Hsrc.
    pose proof (load_predictions_same_source w w1 Hsrc) as Hfst.
    rewrite Hpred, Hload in Hfst. cbn [fst] in Hfst. congruence. }
  subst predictions.
  eexists (to_dict_records df), w', _, w3.
  split; [unfold api_predictions, bind; rewrite Hload; reflexivity |].
  split; [exact Hindex |]. split; [reflexivity |].
  rewrite <- to_dict_records_iloc. reflexivity.
Qed.








(** C7. [generate_visualizations] never raises: it returns in every world,
    and when a step of the rendering raises, the exception is caught and its
    message printed. The dashboard handler therefore always gets to render
    its page. *)
Theorem generate_visualizations_never_raises (w : world) :
  (exists w', generate_visualizations w = (Returned tt, w')) /\
  (forall e w1,
     generate_visualizations_body w = (Raised e, w1) ->
     generate_visualizations w =
       (Returned tt,
        set_stdout
          (stdout w1 ++ [("Error generating visualizations: " ++ str e)%string])%list w1)) /\
  (exists context w', index w = (Returned (Html "index.html" context), w')).
Proof.
  split; [apply generate_visualizations_returns |]. split.
  - intros e w1 Hbody.
    destruct (generate_visualizations_body_errors _ _ _ Hbody) as (c & msg & ->).
    unfold generate_visualizations. now rewrite (try_caught _ _ _ _ _ _ Hbody).
  - destruct (index_eq w) as (w1 & predictions & w2 & importance & w3 & _ & _ & _ & H).
    eauto.
Qed.

Lemma generate_visualizations_never_raises_witness :
  generate_visualizations read_only_world =
    (Returned tt,
     set_stdout
       [ "Error generating visualizations: [Errno 13] Permission denied: 'static'" ]
       read_only_world).
Proof.
  destruct (generate_visualizations_never_raises read_only_world) as (_ & Hcaught & _).
  apply (Hcaught (error PermissionError "[Errno 13] Permission denied: 'static'")
           read_only_world).
  vm_compute; reflexivity.
Defined.

(** ** A rendering that runs to its end *)

Lemma plt_returned c w u w' : plt c w = (Returned u, w') -> w' = draw c w.
Proof.
  intros H. destruct (plt_cases c w) as [(cls & msg & Hc) | Hc]; rewrite Hc in H;
    [discriminate | now injection H as _ <-].
Qed.

Lemma lift_returned {A} (o : outcome A) w a w' :
  lift o w = (Returned a, w') -> o = Returned a /\ w' = w.
Proof. now intros [= -> <-]. Qed.

Lemma load_model_metrics_same_source w w' :
  model_artifact w' = model_artifact w ->
  fst (load_model_metrics w') = fst (load_model_metrics w).
Proof.
  intros Hsrc.
  assert (Hbody : fst (load_model_metrics_body w') = fst (load_model_metrics_body w))
    by (rewrite !load_model_metrics_body_eq, Hsrc; reflexivity).
  destruct (load_model_metrics_body w) as [[r | e] w1] eqn:H1;
    destruct (load_model_metrics_body w') as [[r' | e'] w1'] eqn:H2;
    cbn [fst] in Hbody; try discriminate.
  - unfold load_model_metrics.
    rewrite (try_returned _ _ _ _ _ H1), (try_returned _ _ _ _ _ H2). cbn. congruence.
  - now rewrite (load_model_metrics_fallback _ _ _ H1), (load_model_metrics_fallback _ _ _ H2).
Qed.

Ltac step H x w' Hx := apply bind_returned in H as (x & w' & Hx & H).

Lemma generate_visualizations_body_returned w w1 :
  generate_visualizations_body w = (Returned tt, w1) ->
  exists predictions importance,
    fst (load_predictions w) = Returned predictions /\
    fst (load_model_metrics w) = Returned (metrics_record importance) /\
    fs w1 =
      <[feature_importance_png := Image (feature_importance_figure importance)]>
        (<[team_points_png := Image (team_points_figure predictions)]>
           (if bool_decide (is_Some (fs w !! "static")) then fs w
            else <["static" := Directory]> (fs w))).
Proof.
  intros H. unfold generate_visualizations_body in H.
  step H present world_a Hpresent. injection Hpresent as <- <-.
  step H u world_b Hdir.
  step H predictions world_c Hpred.
  step H u1 world_d H1. apply plt_returned in H1 as ->.
  step H u2 world_e H2. apply plt_returned in H2 as ->.
  step H u3 world_f H3. apply plt_returned in H3 as ->.
  step H u4 world_g H4. apply plt_returned in H4 as ->.
  step H u5 world_h H5. apply plt_returned in H5 as ->.
  step H u6 world_i H6. apply plt_returned in H6 as ->.
  step H u7 world_j H7. apply plt_returned in H7 as ->.
  step H metrics world_k Hmet.
  destruct (load_model_metrics_record
              (draw plt_close (draw (plt_savefig "static/team_points.png")
                 (draw plt_tight_layout (draw (plt_xticks 45 "right")
                    (draw (plt_title "Predicted IPL 2025 Team Points" 16)
                       (draw (sns_barplot_data "Team" "points" predictions palette)
                          (draw (plt_figure 12 6) world_c))))))))
    as (importance & world_k' & Hrec & Hfs & Hin).
  rewrite Hrec in Hmet. injection Hmet as <- <-.
  step H imp world_l Himp. apply lift_returned in Himp as [Himp ->].
  injection Himp as <-.
  step H u8 world_m H8. apply plt_returned in H8 as ->.
  step H ks world_n Hks. apply lift_returned in Hks as [Hks ->]. injection Hks as <-.
  step H vs world_o Hvs. apply lift_returned in Hvs as [Hvs ->]. injection Hvs as <-.
  step H u9 world_p H9. apply plt_returned in H9 as ->.
  step H u10 world_q H10. apply plt_returned in H10 as ->.
  step H u11 world_r H11. apply plt_returned in H11 as ->.
  step H u12 world_s H12. apply plt_returned in H12 as ->.
  apply plt_returned in H as ->.
  pose proof (load_predictions_fs world_b) as Hfs_pred. rewrite Hpred in Hfs_pred.
  unfold same_fs in Hfs_pred. cbn [snd] in Hfs_pred.
  assert (Hdir_src : same_inputs w world_b /\
            fs world_b = if bool_decide (is_Some (fs w !! "static")) then fs w
                    else <["static" := Directory]> (fs w)).
  { destruct (bool_decide (is_Some (fs w !! "static"))); cbn [negb] in Hdir.
    - injection Hdir as _ <-. split; [apply same_inputs_refl | reflexivity].
    - destruct (os_makedirs_cases "static" w) as [(c & msg & Hc) | (_ & Hc)];
        rewrite Hc in Hdir; [discriminate |].
      injection Hdir as _ <-. split; [repeat split | reflexivity]. }
  destruct Hdir_src as [(Hrank & Hart & _) Hfs_dir].
  exists predictions, importance. split; [| split].
  - rewrite <- (load_predictions_same_source w world_b Hrank). now rewrite Hpred.
  - pose proof (load_predictions_inputs world_b) as (_ & Hart_c & _).
    rewrite Hpred in Hart_c. cbn [snd] in Hart_c.
    match type of Hrec with
    | load_model_metrics ?x = _ =>
        assert (Heq : model_artifact x = model_artifact w)
          by (rewrite !draw_artifact; congruence);
        rewrite <- (load_model_metrics_same_source w x Heq)
    end.
    now rewrite Hrec.
  - cbn. rewrite Hfs. cbn. rewrite Hfs_pred, Hfs_dir. reflexivity.
Qed.

(** ** The filesystem *)

Lemma keeps_weaken {A} (R R' : world -> world -> Prop) (m : M A) :
  (forall w w', R w w' -> R' w w') -> keeps R m -> keeps R' m.
Proof. intros HR Hm w. apply HR, Hm. Qed.

Lemma os_makedirs_static : keeps only_charts_change (os_makedirs "static").
Proof.
  intros w. destruct (os_makedirs_cases "static" w) as [(c & msg & ->) | (_ & ->)];
    intros path Hstatic _ _; cbn; [reflexivity |].
  now rewrite lookup_insert_ne.
Qed.

Lemma plt_only_charts c :
  (forall path, c = plt_savefig path ->
                path = team_points_png \/ path = feature_importance_png) ->
  keeps only_charts_change (plt c).
Proof.
  intros Hc w. destruct (plt_cases c w) as [(cls & msg & ->) | ->]; cbn [snd];
    [apply only_charts_change_refl |].
  intros path _ Hteam Hfeat.
  destruct c; cbn; try (destruct (figures w); reflexivity).
  rewrite lookup_insert_ne; [reflexivity |].
  destruct (Hc path0 eq_refl) as [-> | ->]; congruence.
Qed.

Lemma load_predictions_only_charts : keeps only_charts_change load_predictions.
Proof. apply (keeps_weaken same_fs); [apply same_fs_only_charts | apply load_predictions_fs]. Qed.

Lemma load_model_metrics_only_charts : keeps only_charts_change load_model_metrics.
Proof. apply (keeps_weaken same_fs); [apply same_fs_only_charts | apply load_model_metrics_fs]. Qed.

Lemma print_only_charts line : keeps only_charts_change (print line).
Proof. apply (keeps_weaken same_fs); [apply same_fs_only_charts | apply print_fs]. Qed.

#[local] Hint Resolve os_makedirs_static load_predictions_only_charts
  load_model_metrics_only_charts print_only_charts : keeps.
#[local] Hint Extern 1 (keeps only_charts_change (plt _)) =>
  (apply plt_only_charts;
   let H := fresh in
   intros ? H; first [discriminate H | injection H as <-; auto]) : keeps.

Lemma generate_visualizations_only_charts :
  keeps only_charts_change generate_visualizations.
Proof.
  unfold generate_visualizations, generate_visualizations_body.
  keeps_steps only_charts_change_refl only_charts_change_trans.
Qed.

Lemma index_fs w :
  exists w1, generate_visualizations w = (Returned tt, w1) /\
             fs (snd (index w)) = fs w1.
Proof.
  destruct (index_eq w) as (w1 & predictions & w2 & importance & w3 & Hgen & Hpred & Hmet & ->).
  exists w1. split; [exact Hgen |]. cbn [snd].
  pose proof (load_predictions_fs w1) as H1. rewrite Hpred in H1.
  pose proof (load_model_metrics_fs w2) as H2. rewrite Hmet in H2.
  unfold same_fs in *. cbn [snd] in *. congruence.
Qed.

Lemma api_predictions_fs w : fs (snd (api_predictions w)) = fs w.
Proof.
  unfold api_predictions, jsonify.
  apply (keeps_bind same_fs same_fs_trans);
    [apply load_predictions_fs | intros df; apply (keeps_ret same_fs same_fs_refl)].
Qed.

Lemma api_metrics_fs w : fs (snd (api_metrics w)) = fs w.
Proof.
  unfold api_metrics, jsonify.
  apply (keeps_bind same_fs same_fs_trans);
    [apply load_model_metrics_fs | intros r; apply (keeps_ret same_fs same_fs_refl)].
Qed.

Lemma charts_written w w1 :
  generate_visualizations_body w = (Returned tt, w1) ->
  exists predictions importance,
    fst (load_predictions w) = Returned predictions /\
    fst (load_model_metrics w) = Returned (metrics_record importance) /\
    fs (snd (index w)) !! team_points_png = Some (Image (team_points_figure predictions)) /\
    fs (snd (index w)) !! feature_importance_png =
      Some (Image (feature_importance_figure importance)).
Proof.
  intros Hbody.
  destruct (generate_visualizations_body_returned _ _ Hbody)
    as (predictions & importance & Hpred & Hmet & Hfs).
  destruct (index_fs w) as (w1' & Hgen & Hindex).
  unfold generate_visualizations in Hgen.
  rewrite (try_returned _ _ _ _ _ Hbody) in Hgen. injection Hgen as <-.
  exists predictions, importance. rewrite Hindex, Hfs.
  repeat split; try assumption.
  - rewrite lookup_insert_ne by discriminate. apply lookup_insert_eq.
  - apply lookup_insert_eq.
Qed.

(** C8, as the code has it. When no step of the rendering fails, both chart
    images exist after the dashboard handler has run, whether the data came
    from the input files or from the fallbacks. (When a step fails the
    handler still answers, but the images are not guaranteed.) *)
Theorem charts_exist_after_rendering (w w1 : world) :
  generate_visualizations_body w = (Returned tt, w1) ->
  (exists context w', index w = (Returned (Html "index.html" context), w')) /\
  charts_exist (snd (index w)).
Proof.
  intros Hbody. split.
  - destruct (index_eq w) as (wa & predictions & wb & importance & wc & _ & _ & _ & H).
    eauto.
  - destruct (charts_written _ _ Hbody) as (predictions & importance & _ & _ & Ht & Hf).
    split; [rewrite Ht | rewrite Hf]; eauto.
Qed.

Lemma charts_exist_after_rendering_witness :
  generate_visualizations_body fresh_world =
    (Returned tt, snd (generate_visualizations_body fresh_world)) /\
  (exists context w',
     index fresh_world = (Returned (Html "index.html" context), w')) /\
  charts_exist (snd (index fresh_world)).
Proof.
  split; [vm_compute; reflexivity |].
  apply (charts_exist_after_rendering fresh_world
           (snd (generate_visualizations_body fresh_world))).
  vm_compute; reflexivity.
Defined.

(** C8, as stated, fails: in a read-only application directory with no
    [static/] folder the dashboard handler answers with its page, and
    neither chart image exists afterwards. *)
Lemma dashboard_without_charts :
  (exists context w',
     index read_only_world = (Returned (Html "index.html" context), w')) /\
  ~ charts_exist (snd (index read_only_world)).
Proof.
  split; [eexists _, _; vm_compute; reflexivity |].
  intros [[x Hx] _]. vm_compute in Hx. discriminate Hx.
Qed.

(** C9, as the code has it. The Predictions API, the Metrics API and the
    About page leave the filesystem as it is. The dashboard touches nothing
    but [static/] and the two chart images, and when no step of the
    rendering fails it (over)writes both images with the figures drawn from
    the current data. *)
Theorem filesystem_effects (w : world) :
  fs (snd (api_predictions w)) = fs w /\
  fs (snd (api_metrics w)) = fs w /\
  fs (snd (about w)) = fs w /\
  only_charts_change w (snd (index w)) /\
  (forall w1,
     generate_visualizations_body w = (Returned tt, w1) ->
     exists predictions importance,
       fst (load_predictions w) = Returned predictions /\
       fst (load_model_metrics w) = Returned (metrics_record importance) /\
       fs (snd (index w)) !! team_points_png =
         Some (Image (team_points_figure predictions)) /\
       fs (snd (index w)) !! feature_importance_png =
         Some (Image (feature_importance_figure importance))).
Proof.
  split; [apply api_predictions_fs |]. split; [apply api_metrics_fs |].
  split; [reflexivity |]. split.
  - destruct (index_fs w) as (w1 & Hgen & Hfs).
    pose proof (generate_visualizations_only_charts w) as Hkeep.
    rewrite Hgen in Hkeep. cbn [snd] in Hkeep.
    intros path H1 H2 H3. rewrite Hfs. now apply Hkeep.
  - intros w1. apply charts_written.
Qed.

Lemma filesystem_effects_witness :
  fs (snd (index deployed_world)) !! team_points_png =
    Some (Image (team_points_figure
                   (ranking_frame [ ("Mumbai Indians", "Winner", 12);
                                    ("Chennai Super Kings", "Runner-up", 10);
                                    ("Delhi Capitals", "Other", 4) ]))) /\
  is_Some (fs (snd (index deployed_world)) !! feature_importance_png).
Proof.
  destruct (filesystem_effects deployed_world) as (_ & _ & _ & _ & H).
  assert (Hbody : generate_visualizations_body deployed_world =
                    (Returned tt, snd (generate_visualizations_body deployed_world)))
    by (vm_compute; reflexivity).
  destruct (H _ Hbody) as (predictions & importance & Hp & _ & Ht & Hf).
  injection Hp as <-. split; [exact Ht | rewrite Hf; eauto].
Defined.

(** C9, as stated, fails: when seaborn rejects the ranking frame the
    dashboard handler writes neither image, and the filesystem is after the
    request what it was before. *)
Lemma dashboard_writes_nothing :
  (exists context w',
     index renamed_columns_world = (Returned (Html "index.html" context), w')) /\
  fs (snd (index renamed_columns_world)) = fs renamed_columns_world /\
  fs (snd (index renamed_columns_world)) !! team_points_png = None /\
  fs (snd (index renamed_columns_world)) !! feature_importance_png = None.
Proof.
  split; [eexists _, _; vm_compute; reflexivity |].
  repeat split; vm_compute; reflexivity.
Qed.

(** * Further properties of app.py *)

(** ** What a handler answers depends on the two inputs alone *)

Lemma index_inputs : keeps same_inputs index.
Proof.
  intros w.
  destruct (index_eq w) as (w1 & predictions & w2 & importance & w3 & Hgen & Hpred & Hmet & ->).
  cbn [snd].
  pose proof (generate_visualizations_inputs w) as H1. rewrite Hgen in H1.
  pose proof (load_predictions_inputs w1) as H2. rewrite Hpred in H2.
  pose proof (load_model_metrics_inputs w2) as H3. rewrite Hmet in H3.
  cbn [snd] in *. eauto using same_inputs_trans.
Qed.

Lemma index_response w :
  exists predictions importance,
    fst (load_predictions w) = Returned predictions /\
    fst (load_model_metrics w) = Returned (metrics_record importance) /\
    fst (index w) =
      Returned
        (Html "index.html"
           [ ("predictions", PList (to_dict_records predictions));
             ("top_teams", PList (to_dict_records (iloc_to 4 predictions)));
             ("model_metrics",
              PDict [ ("name", PStr "XGBoost"); ("accuracy", PFloat 97.60) ]);
             ("feature_importance", PDict importance) ]).
Proof.
  destruct (index_eq w) as (w1 & predictions & w2 & importance & w3 & Hgen & Hpred & Hmet & ->).
  pose proof (generate_visualizations_inputs w) as (Hr1 & Ha1 & _). rewrite Hgen in Hr1, Ha1.
  pose proof (load_predictions_inputs w1) as (_ & Ha2 & _). rewrite Hpred in Ha2.
  cbn [snd] in *.
  exists predictions, importance. split; [| split; [| reflexivity]].
  - rewrite <- (load_predictions_same_source w w1 Hr1). now rewrite Hpred.
  - rewrite <- (load_model_metrics_same_source w w2 (eq_trans Ha2 Ha1)). now rewrite Hmet.
Qed.

Lemma api_predictions_response w predictions :
  fst (load_predictions w) = Returned predictions ->
  fst (api_predictions w) = Returned (Json (PList (to_dict_records predictions))).
Proof.
  unfold api_predictions, bind. destruct (load_predictions w) as [[df | e] w1]; cbn;
    intros [= ->]. reflexivity.
Qed.

Lemma api_metrics_response w r :
  fst (load_model_metrics w) = Returned r ->
  fst (api_metrics w) = Returned (Json (PDict r)).
Proof.
  unfold api_metrics, bind. destruct (load_model_metrics w) as [[r0 | e] w1]; cbn;
    intros [= ->]. reflexivity.
Qed.

(** The model name and the accuracy shown on the dashboard are the two
    literals of [load_model_metrics]: they are the same whether the model
    artifact loads, fails to load or is unusable. *)
Theorem dashboard_model_metrics_fixed (w : world) :
  exists context w',
    index w = (Returned (Html "index.html" context), w') /\
    dict_get context "model_metrics" =
      Some (PDict [ ("name", PStr "XGBoost"); ("accuracy", PFloat 97.60) ]).
Proof.
  destruct (index_eq w) as (w1 & predictions & w2 & importance & w3 & _ & _ & _ & H).
  eexists _, _. split; [exact H | reflexivity].
Qed.

(** The feature importances handed to the dashboard page are the ones the
    Metrics API serves in the same world. *)
Theorem dashboard_feature_importance_matches_api (w : world) :
  exists r w1 context w2 importance,
    api_metrics w = (Returned (Json (PDict r)), w1) /\
    index w = (Returned (Html "index.html" context), w2) /\
    dict_get r "feature_importance" = Some importance /\
    dict_get context "feature_importance" = Some importance.
Proof.
  destruct (index_response w) as (predictions & importance & _ & Hmet & Hindex).
  destruct (load_model_metrics w) as [[r | e] w1] eqn:Hload; cbn [fst] in Hmet;
    [| discriminate].
  injection Hmet as ->.
  destruct (index w) as [resp w2] eqn:Hi. cbn [fst] in Hindex. subst resp.
  exists (metrics_record importance), w1. eexists _, w2, (PDict importance).
  split; [exact (api_metrics_eq _ _ _ Hload) |].
  split; [reflexivity |]. split; reflexivity.
Qed.


(** The page of the dashboard is a function of the ranking source and the
    model artifact: the files under [static/], the failures of the plotting
    libraries and what was printed before have no part in it. *)
Theorem dashboard_page_depends_on_inputs (w w' : world) :
  ranking_source w' = ranking_source w ->
  model_artifact w' = model_artifact w ->
  fst (index w') = fst (index w).
Proof.
  intros Hrank Hart.
  destruct (index_response w) as (p & i & Hp & Hm & ->).
  destruct (index_response w') as (p' & i' & Hp' & Hm' & ->).
  rewrite (load_predictions_same_source w w' Hrank), Hp in Hp'.
  rewrite (load_model_metrics_same_source w w' Hart), Hm in Hm'.
  injection Hp' as ->. injection Hm' as Heq.
  assert (i = i') as -> by (cbn in Heq; congruence). reflexivity.
Qed.

Lemma dashboard_page_depends_on_inputs_witness :
  fst (index read_only_world) = fst (index fresh_world).
Proof.
  apply (dashboard_page_depends_on_inputs fresh_world read_only_world); reflexivity.
Defined.

(** A dashboard request changes no later answer: after it the Predictions
    API, the Metrics API and the dashboard itself respond as they would have
    before it. *)
Theorem responses_unchanged_by_dashboard (w : world) :
  fst (api_predictions (snd (index w))) = fst (api_predictions w) /\
  fst (api_metrics (snd (index w))) = fst (api_metrics w) /\
  fst (index (snd (index w))) = fst (index w).
Proof.
  pose proof (index_inputs w) as (Hrank & Hart & _).
  destruct (load_predictions_returns w) as (df & w1 & Hdf).
  destruct (load_model_metrics_returns w) as (r & w2 & Hr).
  split; [| split].
  - rewrite (api_predictions_response w df), (api_predictions_response _ df);
      [reflexivity | | now rewrite Hdf].
    rewrite (load_predictions_same_source w _ Hrank). now rewrite Hdf.
  - rewrite (api_metrics_response w r), (api_metrics_response _ r);
      [reflexivity | | now rewrite Hr].
    rewrite (load_model_metrics_same_source w _ Hart). now rewrite Hr.
  - destruct (index_response w) as (p & i & Hp & Hm & ->).
    destruct (index_response (snd (index w))) as (p' & i' & Hp' & Hm' & ->).
    rewrite (load_predictions_same_source w _ Hrank), Hp in Hp'.
    rewrite (load_model_metrics_same_source w _ Hart), Hm in Hm'.
    injection Hp' as ->. injection Hm' as Heq.
    assert (i = i') as -> by (cbn in Heq; congruence). reflexivity.
Qed.

(** ** The metrics reader *)

Lemma combine_take {A B} (l : list A) (k : list B) :
  combine l k = combine l (firstn (length l) k).
Proof.
  revert k. induction l as [| x l IH]; intros [| y k]; cbn; [reflexivity .. |].
  now rewrite <- IH.
Qed.

Lemma dict_get_absent {V} (d : dict V) k : ~ In k (keys d) -> dict_get d k = None.
Proof.
  induction d as [| [k' v'] d IH]; cbn; intros Hk; [reflexivity |].
  destruct (String.eqb_spec k' k) as [-> | Hne]; [tauto |]. apply IH. tauto.
Qed.

Lemma load_model_metrics_body_returned w r w' :
  load_model_metrics_body w = (Returned r, w') ->
  exists v fl,
    model_artifact w = Loads (mk_model (Vector v)) /\
    w' = w /\
    Forall2 (fun x f => float_ x = Returned f) (firstn 6 v) fl /\
    r = metrics_record (combine (firstn (length v) features) (map PFloat fl)).
Proof.
  intros Hbody. rewrite load_model_metrics_body_eq in Hbody. unfold getattr_, zip_ in Hbody.
  destruct (model_artifact w) as [[a] | c msg]; cbn -[combine] in Hbody; [| discriminate].
  destruct a as [| | v]; cbn -[combine] in Hbody; try discriminate.
  destruct (importance_comprehension (combine features v) []) as [d |] eqn:Hc;
    cbn -[combine] in Hbody; [| discriminate].
  injection Hbody as <- <-.
  apply comprehension_returns in Hc as (fl & Hfl & ->).
  - rewrite combine_snd in Hfl. rewrite combine_fst. exists v, fl. repeat split. exact Hfl.
  - cbn -[combine]. rewrite combine_fst.
    eapply sublist_NoDup; [apply features_NoDup | apply sublist_take].
Qed.

Lemma load_model_metrics_of_body w w' :
  fst (load_model_metrics_body w') = fst (load_model_metrics_body w) ->
  fst (load_model_metrics w') = fst (load_model_metrics w).
Proof.
  intros Hbody.
  destruct (load_model_metrics_body w) as [[r | e] w1] eqn:H1;
    destruct (load_model_metrics_body w') as [[r' | e'] w1'] eqn:H2;
    cbn [fst] in Hbody; try discriminate.
  - unfold load_model_metrics.
    rewrite (try_returned _ _ _ _ _ H1), (try_returned _ _ _ _ _ H2). cbn. congruence.
  - now rewrite (load_model_metrics_fallback _ _ _ H1), (load_model_metrics_fallback _ _ _ H2).
Qed.

(** [load_model_metrics] looks at the first six entries of the importance
    vector and at nothing after them: two artifacts whose vectors agree on
    those entries give the same record, whatever follows (a non-number past
    the sixth entry does not send the reader to its fallback). *)
Theorem load_model_metrics_first_six (w w' : world) (v v' : list element) :
  model_artifact w = Loads (mk_model (Vector v)) ->
  model_artifact w' = Loads (mk_model (Vector v')) ->
  firstn 6 v = firstn 6 v' ->
  fst (load_model_metrics w') = fst (load_model_metrics w).
Proof.
  intros Hw Hw' Hsix. apply load_model_metrics_of_body.
  rewrite !load_model_metrics_body_eq, Hw, Hw'. unfold getattr_, zip_.
  cbn -[combine].
  rewrite (combine_take features v), (combine_take features v').
  change (length features) with 6%nat. now rewrite Hsix.
Qed.

Lemma load_model_metrics_first_six_witness :
  fst (load_model_metrics trailing_entry_world) =
  fst (load_model_metrics seven_feature_world).
Proof.
  apply (load_model_metrics_first_six seven_feature_world trailing_entry_world
           [ Number 0.3; Number 0.2; Number 0.2; Number 0.1; Number 0.1; Number 0.05;
             Number 0.05 ]
           [ Number 0.3; Number 0.2; Number 0.2; Number 0.1; Number 0.1; Number 0.05;
             NotNumber ]); reflexivity.
Defined.

(** On the success path the keys of feature_importance are the leading
    feature names in the order of the fixed list, one per entry of the
    vector; a feature for which a short vector has no entry is missing from
    the mapping (it is not filled in from the fallback values). *)
Theorem feature_importance_keys_in_order (w : world) (r : dict pyval) (w' : world) :
  load_model_metrics_body w = (Returned r, w') ->
  exists v d,
    model_artifact w = Loads (mk_model (Vector v)) /\
    dict_get r "feature_importance" = Some (PDict d) /\
    keys d = firstn (length v) features /\
    forall i name,
      (length v <= i)%nat -> features !! i = Some name -> dict_get d name = None.
Proof.
  intros Hbody.
  destruct (load_model_metrics_body_returned _ _ _ Hbody) as (v & fl & Hsrc & _ & Hfl & ->).
  pose proof (Forall2_length _ _ _ Hfl) as Hlen. rewrite length_take in Hlen.
  assert (Hkeys : keys (combine (firstn (length v) features) (map PFloat fl)) =
                  firstn (length v) features).
  { unfold keys. rewrite combine_fst, length_map, <- Hlen, take_take.
    destruct (Nat.le_ge_cases (length v) 6) as [Hle | Hge].
    - f_equal. lia.
    - rewrite !take_ge; [reflexivity | exact Hge |].
      change (length features) with 6%nat. lia. }
  exists v, (combine (firstn (length v) features) (map PFloat fl)).
  split; [exact Hsrc |]. split; [reflexivity |]. split; [exact Hkeys |].
  intros i name Hi Hname. apply dict_get_absent. rewrite Hkeys.
  intros Hin. apply list_elem_of_In, list_elem_of_lookup in Hin as [j Hj].
  apply lookup_take_Some in Hj as [Hj Hlt].
  pose proof (NoDup_lookup _ _ _ _ features_NoDup Hj Hname). lia.
Qed.

Lemma feature_importance_keys_in_order_witness :
  exists v d,
    model_artifact three_feature_world = Loads (mk_model (Vector v)) /\
    dict_get (metrics_record [ ("batting_strength", PFloat 0.5);
                               ("bowling_strength", PFloat 0.3);
                               ("consistency", PFloat 0.2) ])
      "feature_importance" = Some (PDict d) /\
    keys d = firstn (length v) features /\
    forall i name,
      (length v <= i)%nat -> features !! i = Some name -> dict_get d name = None.
Proof.
  apply (feature_importance_keys_in_order three_feature_world _ three_feature_world).
  reflexivity.
Defined.

(** [load_model_metrics] touches nothing but the output: on the success path
    it leaves the world as it is and prints nothing; on the fallback path it
    appends exactly one line, which starts with "Error loading model
    metrics: ", and changes nothing else. When it is the load of the
    artifact that fails, the rest of the line is the message of that
    failure. *)
Theorem load_model_metrics_prints_once (w : world) :
  exists r w',
    load_model_metrics w = (Returned r, w') /\
    (~ artifact_unusable (model_artifact w) -> w' = w) /\
    (artifact_unusable (model_artifact w) ->
       exists text,
         w' = set_stdout
                (stdout w ++ [("Error loading model metrics: " ++ text)%string])%list w) /\
    (forall c msg,
       model_artifact w = Fails c msg ->
       w' = set_stdout
              (stdout w ++ [("Error loading model metrics: " ++ msg)%string])%list w).
Proof.
  destruct (load_model_metrics_body w) as [[r | e] w1] eqn:Hbody.
  - pose proof (load_model_metrics_body_world _ _ _ Hbody) as ->.
    exists r, w. split; [unfold load_model_metrics; now apply try_returned |].
    assert (Hok : ~ artifact_unusable (model_artifact w)).
    { intros Hbad. apply load_model_metrics_body_raises in Hbad as (e & w2 & He).
      congruence. }
    split; [reflexivity |]. split; [tauto |].
    intros c msg Hsrc. exfalso. apply Hok. now rewrite Hsrc.
  - rewrite (load_model_metrics_fallback _ _ _ Hbody). eexists _, _.
    split; [reflexivity |]. split.
    + intros Hok. exfalso. apply Hok, load_model_metrics_body_raises. eauto.
    + split; [eauto |]. intros c msg Hsrc.
      rewrite load_model_metrics_body_eq, Hsrc in Hbody. cbn in Hbody.
      now injection Hbody as <- _.
Qed.

(** ** A rendering that nothing stops *)

Lemma bind_eq {A B} (m : M A) (k : A -> M B) w a w1 :
  m w = (Returned a, w1) -> bind m k w = k a w1.
Proof. intros H. unfold bind. now rewrite H. Qed.

Lemma plt_ok c w : plotting_failure w c = None -> plt c w = (Returned tt, draw c w).
Proof. intros H. unfold plt. now rewrite H. Qed.

Lemma draw_plotting c w : plotting_failure (draw c w) = plotting_failure w.
Proof. apply draw_inputs. Qed.

Lemma os_makedirs_ok path w :
  fs w !! path = None -> makedirs_failure w = None ->
  os_makedirs path w = (Returned tt, set_fs (<[path := Directory]> (fs w)) w).
Proof.
  intros Hp Hm. unfold os_makedirs. rewrite Hm, Hp.
  rewrite bool_decide_eq_false_2; [reflexivity |]. now intros [x Hx].
Qed.

Ltac run_plt H :=
  erewrite (bind_eq (plt _)) by (apply plt_ok; rewrite ?draw_plotting; apply H);
  cbv beta.

Lemma rendering_runs w :
  renders w ->
  exists wb predictions wc importance wk,
    (is_Some (fs w !! "static") /\ wb = w \/
     fs w !! "static" = None /\ wb = set_fs (<["static" := Directory]> (fs w)) w) /\
    load_predictions wb = (Returned predictions, wc) /\
    load_model_metrics (draws (team_points_calls predictions) wc) =
      (Returned (metrics_record importance), wk) /\
    generate_visualizations_body w =
      (Returned tt, draws (feature_importance_calls importance) wk).
Proof.
  intros [Hplt Hdir].
  assert (Hstart : exists wb,
            (is_Some (fs w !! "static") /\ wb = w \/
             fs w !! "static" = None /\
             wb = set_fs (<["static" := Directory]> (fs w)) w) /\
            (forall c, plotting_failure wb c = None) /\
            forall k : unit -> M unit,
              bind (if negb (bool_decide (is_Some (fs w !! "static")))
                    then os_makedirs "static" else ret tt) k w = k tt wb).
  { destruct (fs w !! "static") as [n |] eqn:Hst.
    - exists w. split; [left; eauto |]. split; [exact Hplt |]. intros k.
      rewrite bool_decide_eq_true_2 by eauto. reflexivity.
    - eexists. split; [right; split; reflexivity |]. split; [exact Hplt |]. intros k.
      rewrite bool_decide_eq_false_2 by (now intros [x Hx]). cbn [negb].
      apply bind_eq, os_makedirs_ok; [exact Hst | now apply Hdir]. }
  destruct Hstart as (wb & Hwb & Hpb & Hrun).
  destruct (load_predictions_returns wb) as (predictions & wc & Hpred).
  assert (Hpc : forall c, plotting_failure wc c = None).
  { pose proof (load_predictions_inputs wb) as (_ & _ & Hpf & _).
    rewrite Hpred in Hpf. cbn [snd] in Hpf. now rewrite Hpf. }
  destruct (load_model_metrics_record (draws (team_points_calls predictions) wc))
    as (importance & wk & Hmet & _ & (_ & _ & Hpf & _)).
  assert (Hpk : forall c, plotting_failure wk c = None).
  { intros c. rewrite Hpf. cbn [draws team_points_calls fold_left].
    rewrite !draw_plotting. apply Hpc. }
  exists wb, predictions, wc, importance, wk.
  split; [exact Hwb |]. split; [exact Hpred |]. split; [exact Hmet |].
  unfold generate_visualizations_body.
  rewrite (bind_eq (os_path_exists "static") _ w _ w eq_refl). cbv beta.
  rewrite Hrun. rewrite (bind_eq _ _ _ _ _ Hpred). cbv beta.
  do 7 run_plt Hpc.
  cbn [draws team_points_calls fold_left] in Hmet.
  rewrite (bind_eq _ _ _ _ _ Hmet). cbv beta.
  rewrite (bind_eq (lift _) _ _ (PDict importance) _ eq_refl). cbv beta.
  run_plt Hpk.
  rewrite (bind_eq (lift _) _ _ (keys importance) _ eq_refl). cbv beta.
  rewrite (bind_eq (lift _) _ _ (values importance) _ eq_refl). cbv beta.
  do 4 run_plt Hpk.
  rewrite plt_ok by (rewrite ?draw_plotting; apply Hpk).
  reflexivity.
Qed.

Lemma set_stdout_same w : set_stdout (stdout w ++ [])%list w = w.
Proof. destruct w. unfold set_stdout. cbn. now rewrite app_nil_r. Qed.

Lemma set_stdout_app out1 out2 w :
  set_stdout (stdout (set_stdout (stdout w ++ out1)%list w) ++ out2)%list
    (set_stdout (stdout w ++ out1)%list w) =
  set_stdout (stdout w ++ out1 ++ out2)%list w.
Proof. unfold set_stdout. cbn. now rewrite <- app_assoc. Qed.

(** What a reader prints is decided by its input alone. *)
Lemma load_predictions_log w :
  exists out,
    forall w', ranking_source w' = ranking_source w ->
      exists df, load_predictions w' = (Returned df, set_stdout (stdout w' ++ out)%list w').
Proof.
  destruct (ranking_source w) as [df | c msg] eqn:Hsrc.
  - exists []. intros w' Hw'. exists df. rewrite set_stdout_same.
    apply load_predictions_loads. congruence.
  - eexists [_]. intros w' Hw'. rewrite (load_predictions_fails w' c msg) by congruence.
    destruct (from_dict dummy_data) as [df |] eqn:Hd; [| discriminate]. eauto.
Qed.

Lemma load_model_metrics_log w :
  exists out,
    forall w', model_artifact w' = model_artifact w ->
      exists d, load_model_metrics w' =
                  (Returned (metrics_record d), set_stdout (stdout w' ++ out)%list w').
Proof.
  destruct (load_model_metrics_body w) as [[r | e] w1] eqn:Hbody.
  - exists []. intros w' Hw'.
    assert (Hbody' : load_model_metrics_body w' = (Returned r, w')).
    { rewrite load_model_metrics_body_eq in Hbody |- *. rewrite Hw'.
      injection Hbody as -> _. reflexivity. }
    destruct (load_model_metrics_body_returned _ _ _ Hbody') as (v & fl & _ & _ & _ & ->).
    eexists. rewrite set_stdout_same. unfold load_model_metrics.
    exact (try_returned _ _ _ _ _ Hbody').
  - eexists [_]. intros w' Hw'.
    assert (Hbody' : load_model_metrics_body w' = (Raised e, w')).
    { rewrite load_model_metrics_body_eq in Hbody |- *. rewrite Hw'.
      injection Hbody as -> _. reflexivity. }
    rewrite (load_model_metrics_fallback _ _ _ Hbody'). eauto.
Qed.

Lemma draws_team_points predictions w :
  fs (draws (team_points_calls predictions) w) =
    <[team_points_png := Image (team_points_figure predictions)]> (fs w) /\
  figures (draws (team_points_calls predictions) w) = figures w /\
  stdout (draws (team_points_calls predictions) w) = stdout w /\
  same_inputs w (draws (team_points_calls predictions) w).
Proof. repeat split. Qed.

Lemma draws_feature_importance importance w :
  fs (draws (feature_importance_calls importance) w) =
    <[feature_importance_png := Image (feature_importance_figure importance)]> (fs w) /\
  figures (draws (feature_importance_calls importance) w) = figures w /\
  stdout (draws (feature_importance_calls importance) w) = stdout w /\
  same_inputs w (draws (feature_importance_calls importance) w).
Proof. repeat split. Qed.

(** The whole of a rendering and of a dashboard request that nothing stops. *)
Lemma rendering_world w :
  renders w ->
  exists predictions importance out_p out_m w1 w2,
    fst (load_predictions w) = Returned predictions /\
    fst (load_model_metrics w) = Returned (metrics_record importance) /\
    snd (load_predictions w) = set_stdout (stdout w ++ out_p)%list w /\
    snd (load_model_metrics w) = set_stdout (stdout w ++ out_m)%list w /\
    generate_visualizations w = (Returned tt, w1) /\
    snd (index w) = w2 /\
    same_inputs w w2 /\
    fs w1 =
      <[feature_importance_png := Image (feature_importance_figure importance)]>
        (<[team_points_png := Image (team_points_figure predictions)]>
           (if bool_decide (is_Some (fs w !! "static")) then fs w
            else <["static" := Directory]> (fs w))) /\
    fs w2 = fs w1 /\
    figures w1 = figures w /\ figures w2 = figures w /\
    stdout w1 = (stdout w ++ out_p ++ out_m)%list /\
    stdout w2 = (stdout w ++ (out_p ++ out_m) ++ out_p ++ out_m)%list.
Proof.
  intros Hr.
  destruct (rendering_runs w Hr)
    as (wb & predictions & wc & importance & wk & Hwb & Hpred & Hmet & Hbody).
  destruct (load_predictions_log w) as (out_p & Hlog_p).
  destruct (load_model_metrics_log w) as (out_m & Hlog_m).
  assert (Hb : same_inputs w wb /\ figures wb = figures w /\ stdout wb = stdout w /\
               fs wb = if bool_decide (is_Some (fs w !! "static")) then fs w
                       else <["static" := Directory]> (fs w)).
  { destruct Hwb as [[Hst ->] | [Hst ->]].
    - rewrite bool_decide_eq_true_2 by exact Hst. repeat split.
    - rewrite bool_decide_eq_false_2 by (rewrite Hst; now intros [x Hx]). repeat split. }
  destruct Hb as ((Hrank_b & Hart_b & Hpf_b & Hmk_b) & Hfig_b & Hout_b & Hfs_b).
  (* the reader of the rendering *)
  destruct (Hlog_p wb Hrank_b) as (df & Hpred'). rewrite Hpred in Hpred'.
  injection Hpred' as <- Hwc.
  destruct (draws_team_points predictions wc) as (Hfs_t & Hfig_t & Hout_t & Hin_t).
  remember (draws (team_points_calls predictions) wc) as wt eqn:Hwt.
  assert (Hin_c : same_inputs w wc) by (subst wc; repeat split; assumption).
  assert (Hin_wt : same_inputs w wt) by (eapply same_inputs_trans; eassumption).
  destruct (Hlog_m wt (proj1 (proj2 Hin_wt))) as (d & Hmet'). rewrite Hmet in Hmet'.
  injection Hmet' as Hd Hwk.
  assert (importance = d) as <- by (cbn in Hd; congruence). clear Hd.
  destruct (draws_feature_importance importance wk) as (Hfs_f & Hfig_f & Hout_f & Hin_f).
  remember (draws (feature_importance_calls importance) wk) as w1 eqn:Hw1.
  assert (Hin_k : same_inputs w wk) by (subst wk; repeat split; apply Hin_wt).
  assert (Hin_1 : same_inputs w w1) by (eapply same_inputs_trans; eassumption).
  assert (Hgen : generate_visualizations w = (Returned tt, w1))
    by (unfold generate_visualizations; now apply try_returned).
  (* the readers of the handler *)
  destruct (Hlog_p w1 (proj1 Hin_1)) as (df1 & Hp1).
  destruct (Hlog_m (set_stdout (stdout w1 ++ out_p)%list w1) (proj1 (proj2 Hin_1)))
    as (d1 & Hm1).
  destruct (Hlog_p w eq_refl) as (df0 & Hp0).
  destruct (Hlog_m w eq_refl) as (d0 & Hm0).
  assert (df0 = predictions) as ->.
  { pose proof (load_predictions_same_source w wb Hrank_b) as H.
    rewrite Hpred, Hp0 in H. cbn [fst] in H. congruence. }
  assert (d0 = importance) as ->.
  { pose proof (load_model_metrics_same_source w wt (proj1 (proj2 Hin_wt))) as H.
    rewrite Hmet, Hm0 in H. cbn [fst] in H.
    injection H as H. cbn in H. congruence. }
  assert (Hindex : snd (index w) =
                   set_stdout (stdout (set_stdout (stdout w1 ++ out_p)%list w1) ++ out_m)%list
                     (set_stdout (stdout w1 ++ out_p)%list w1)).
  { unfold index. rewrite (bind_eq _ _ _ _ _ Hgen). cbv beta.
    rewrite (bind_eq _ _ _ _ _ Hp1). cbv beta.
    rewrite (bind_eq _ _ _ _ _ Hm1). reflexivity. }
  assert (Hout_1 : stdout w1 = (stdout w ++ out_p ++ out_m)%list).
  { rewrite Hout_f, Hwk. cbn [stdout set_stdout]. rewrite Hout_t, Hwc.
    cbn [stdout set_stdout]. rewrite Hout_b. now rewrite <- app_assoc. }
  exists predictions, importance, out_p, out_m, w1, (snd (index w)).
  rewrite Hp0, Hm0, Hindex. cbn [fst snd].
  split; [reflexivity |]. split; [reflexivity |]. split; [reflexivity |].
  split; [reflexivity |]. split; [exact Hgen |]. split; [reflexivity |].
  split; [repeat split; apply Hin_1 |].
  split.
  { rewrite Hfs_f, Hwk. cbn [fs set_stdout]. rewrite Hfs_t, Hwc.
    cbn [fs set_stdout]. now rewrite Hfs_b. }
  split; [reflexivity |].
  assert (Hfig_1 : figures w1 = figures w).
  { rewrite Hfig_f, Hwk. cbn [figures set_stdout]. rewrite Hfig_t, Hwc.
    cbn [figures set_stdout]. exact Hfig_b. }
  split; [exact Hfig_1 |]. split; [exact Hfig_1 |].
  split; [exact Hout_1 |].
  cbn [stdout set_stdout]. rewrite Hout_1. now rewrite <- !app_assoc.
Qed.

(** When neither the plotting libraries nor the creation of [static/] fail,
    a dashboard request leaves the filesystem as it found it plus [static/]
    if it was missing, with the two chart images (over)written by the
    figures of the current data; this holds for any data, read or fallback. *)
Theorem dashboard_filesystem_when_nothing_fails (w : world) :
  renders w ->
  exists predictions importance,
    fst (load_predictions w) = Returned predictions /\
    fst (load_model_metrics w) = Returned (metrics_record importance) /\
    fs (snd (index w)) =
      <[feature_importance_png := Image (feature_importance_figure importance)]>
        (<[team_points_png := Image (team_points_figure predictions)]>
           (if bool_decide (is_Some (fs w !! "static")) then fs w
            else <["static" := Directory]> (fs w))).
Proof.
  intros Hr.
  destruct (rendering_world w Hr)
    as (p & i & out_p & out_m & w1 & w2 & Hp & Hi & _ & _ & _ & <- & _ & Hfs1 & Hfs2 & _).
  exists p, i. split; [exact Hp |]. split; [exact Hi |]. now rewrite Hfs2.
Qed.

Lemma dashboard_filesystem_when_nothing_fails_witness :
  exists predictions importance,
    fst (load_predictions fresh_world) = Returned predictions /\
    fst (load_model_metrics fresh_world) = Returned (metrics_record importance) /\
    fs (snd (index fresh_world)) =
      <[feature_importance_png := Image (feature_importance_figure importance)]>
        (<[team_points_png := Image (team_points_figure predictions)]>
           (if bool_decide (is_Some (fs fresh_world !! "static")) then fs fresh_world
            else <["static" := Directory]> (fs fresh_world))).
Proof.
  apply (dashboard_filesystem_when_nothing_fails fresh_world).
  split; [intros c; reflexivity | intros _; reflexivity].
Defined.

(** A rendering that nothing stops closes every figure it opens: after
    [generate_visualizations], and after the whole dashboard request, the
    open figures are the ones that were open before. *)
Theorem rendering_closes_its_figures (w : world) :
  renders w ->
  figures (snd (generate_visualizations w)) = figures w /\
  figures (snd (index w)) = figures w.
Proof.
  intros Hr.
  destruct (rendering_world w Hr)
    as (p & i & out_p & out_m & w1 & w2 & _ & _ & _ & _ & Hgen & <- & _ & _ & _ & Hf1 & Hf2 & _).
  rewrite Hgen. split; assumption.
Qed.

Lemma rendering_closes_its_figures_witness :
  figures (snd (generate_visualizations deployed_world)) = figures deployed_world /\
  figures (snd (index deployed_world)) = figures deployed_world.
Proof.
  apply (rendering_closes_its_figures deployed_world).
  split; [intros c; reflexivity | intros _; reflexivity].
Defined.

(** Nothing is cached within a request. When neither a plotting call nor
    the creation of [static/] fails, the dashboard reads both inputs once
    for the charts and once more for the page, so whatever the two readers
    print for the current inputs is printed twice in that request. *)
Theorem dashboard_reads_inputs_twice (w : world) :
  renders w ->
  exists out_p out_m,
    snd (load_predictions w) = set_stdout (stdout w ++ out_p)%list w /\
    snd (load_model_metrics w) = set_stdout (stdout w ++ out_m)%list w /\
    stdout (snd (index w)) = (stdout w ++ (out_p ++ out_m) ++ out_p ++ out_m)%list.
Proof.
  intros Hr.
  destruct (rendering_world w Hr)
    as (p & i & out_p & out_m & w1 & w2 & _ & _ & Hp & Hm & _ & <- & _ & _ & _ & _ & _ & _ & Ho).
  exists out_p, out_m. repeat split; assumption.
Qed.

Lemma dashboard_reads_inputs_twice_witness :
  exists out_p out_m,
    snd (load_predictions fresh_world) =
      set_stdout (stdout fresh_world ++ out_p)%list fresh_world /\
    snd (load_model_metrics fresh_world) =
      set_stdout (stdout fresh_world ++ out_m)%list fresh_world /\
    stdout (snd (index fresh_world)) =
      (stdout fresh_world ++ (out_p ++ out_m) ++ out_p ++ out_m)%list.
Proof.
  apply (dashboard_reads_inputs_twice fresh_world).
  split; [intros c; reflexivity | intros _; reflexivity].
Defined.

Lemma charts_rewritten (m : gmap string node) (t f : node) :
  <[feature_importance_png := f]>
    (<[team_points_png := t]>
       (<[feature_importance_png := f]> (<[team_points_png := t]> m))) =
  <[feature_importance_png := f]> (<[team_points_png := t]> m).
Proof.
  apply map_eq. intros k.
  destruct (decide (k = feature_importance_png)) as [-> | Hf];
    [now rewrite !lookup_insert_eq |].
  destruct (decide (k = team_points_png)) as [-> | Ht];
    repeat first [ rewrite lookup_insert_eq
                 | rewrite lookup_insert_ne by congruence ];
    reflexivity.
Qed.

(** Reloading the dashboard is idempotent on the filesystem: when nothing
    fails, a second request leaves under [static/] exactly what the first
    one left. *)
Theorem dashboard_reload_same_files (w : world) :
  renders w ->
  fs (snd (index (snd (index w)))) = fs (snd (index w)).
Proof.
  intros Hr.
  destruct (rendering_world w Hr)
    as (p & i & out_p & out_m & w1 & w2 & Hp & Hi & _ & _ & _ & Hw2 & Hin & Hfs1 & Hfs2 & _).
  rewrite Hw2. destruct Hin as (Hrank & Hart & Hpf & Hmk).
  assert (Hstatic : is_Some (fs w2 !! "static")).
  { rewrite Hfs2, Hfs1.
    rewrite lookup_insert_ne by discriminate. rewrite lookup_insert_ne by discriminate.
    destruct (fs w !! "static") as [n |] eqn:Hst.
    - rewrite bool_decide_eq_true_2 by eauto. rewrite Hst. eauto.
    - rewrite bool_decide_eq_false_2 by (now intros [x Hx]).
      rewrite lookup_insert_eq. eauto. }
  assert (Hr2 : renders w2).
  { split; [intros c; rewrite Hpf; apply Hr |].
    intros Hnone. rewrite Hnone in Hstatic. now destruct Hstatic. }
  destruct (rendering_world w2 Hr2)
    as (p' & i' & _ & _ & w1' & w2' & Hp' & Hi' & _ & _ & _ & <- & _ & Hfs1' & Hfs2' & _).
  rewrite (load_predictions_same_source w w2 Hrank), Hp in Hp'. injection Hp' as <-.
  rewrite (load_model_metrics_same_source w w2 Hart), Hi in Hi'.
  assert (i' = i) as -> by (cbn in Hi'; congruence).
  rewrite Hfs2', Hfs1'. rewrite bool_decide_eq_true_2 by exact Hstatic.
  rewrite Hfs2, Hfs1. apply charts_rewritten.
Qed.

Lemma dashboard_reload_same_files_witness :
  fs (snd (index (snd (index deployed_world)))) = fs (snd (index deployed_world)).
Proof.
  apply (dashboard_reload_same_files deployed_world).
  split; [intros c; reflexivity | intros _; reflexivity].
Defined.

(** ** A rendering that stops half way *)

Lemma bind_raise {A B} (m : M A) (k : A -> M B) w e w1 :
  m w = (Raised e, w1) -> bind m k w = (Raised e, w1).
Proof. intros H. unfold bind. now rewrite H. Qed.

Lemma plt_fail c w cls msg :
  plotting_failure w c = Some (cls, msg) -> plt c w = (Raised (error cls msg), w).
Proof. intros H. unfold plt. now rewrite H. Qed.

Lemma generate_visualizations_after_body w :
  (exists w1, generate_visualizations_body w = (Returned tt, w1) /\
              generate_visualizations w = (Returned tt, w1)) \/
  (exists e w1, generate_visualizations_body w = (Raised e, w1) /\
                generate_visualizations w =
                  (Returned tt,
                   set_stdout
                     (stdout w1 ++ [("Error generating visualizations: " ++ str e)%string])%list
                     w1)).
Proof.
  destruct (generate_visualizations_body w) as [[[] | e] w1] eqn:Hbody.
  - left. exists w1. split; [reflexivity |].
    unfold generate_visualizations. now apply try_returned.
  - right. exists e, w1. split; [reflexivity |].
    destruct (generate_visualizations_body_errors _ _ _ Hbody) as (c & msg & ->).
    unfold generate_visualizations. now rewrite (try_caught _ _ _ _ _ _ Hbody).
Qed.

Lemma generate_visualizations_fs_body w :
  fs (snd (generate_visualizations w)) = fs (snd (generate_visualizations_body w)).
Proof.
  destruct (generate_visualizations_after_body w)
    as [(w1 & -> & ->) | (e & w1 & -> & ->)]; reflexivity.
Qed.

(** The directory step of the rendering, when it goes through. *)
Lemma directory_step w :
  (fs w !! "static" = None -> makedirs_failure w = None) ->
  exists wb,
    same_inputs w wb /\ figures wb = figures w /\ stdout wb = stdout w /\
    (forall path, path <> "static" -> fs wb !! path = fs w !! path) /\
    forall k : unit -> M unit,
      bind (os_path_exists "static")
        (fun present =>
           bind (if negb present then os_makedirs "static" else ret tt) k) w = k tt wb.
Proof.
  intros Hdir. destruct (fs w !! "static") as [n |] eqn:Hst.
  - exists w. repeat split. intros k.
    rewrite (bind_eq (os_path_exists "static") _ w _ w eq_refl). cbv beta.
    rewrite bool_decide_eq_true_2 by (rewrite Hst; eauto). reflexivity.
  - exists (set_fs (<["static" := Directory]> (fs w)) w). repeat split.
    + intros path Hp. cbn. now rewrite lookup_insert_ne.
    + intros k.
      rewrite (bind_eq (os_path_exists "static") _ w _ w eq_refl). cbv beta.
      rewrite bool_decide_eq_false_2 by (rewrite Hst; now intros [x Hx]). cbn [negb].
      apply bind_eq, os_makedirs_ok; [exact Hst | now apply Hdir].
Qed.

Lemma team_points_kept_refl w : team_points_kept w w.
Proof. reflexivity. Qed.

Lemma team_points_kept_trans a b c :
  team_points_kept a b -> team_points_kept b c -> team_points_kept a c.
Proof. unfold team_points_kept. congruence. Qed.

Lemma plt_team_points_kept c :
  c <> plt_savefig team_points_png -> keeps team_points_kept (plt c).
Proof.
  intros Hc w. destruct (plt_cases c w) as [(cls & msg & ->) | ->]; cbn [snd];
    [reflexivity |].
  unfold team_points_kept.
  destruct c; cbn; try (destruct (figures w); reflexivity).
  apply lookup_insert_ne. congruence.
Qed.

Lemma load_model_metrics_team_points_kept : keeps team_points_kept load_model_metrics.
Proof.
  apply (keeps_weaken same_fs); [| apply load_model_metrics_fs].
  intros w w' H. unfold team_points_kept. now rewrite H.
Qed.

Lemma print_team_points_kept line : keeps team_points_kept (print line).
Proof. intros w. reflexivity. Qed.

#[local] Hint Resolve team_points_kept_refl load_model_metrics_team_points_kept
  print_team_points_kept : keeps.
#[local] Hint Extern 1 (keeps team_points_kept (plt _)) =>
  (apply plt_team_points_kept; discriminate) : keeps.

(** The charts are drawn one after the other: once the points chart has
    been saved, a failure of any later step (closing the figure, drawing or
    saving the importance chart) leaves that image in place, drawn from the
    current ranking. *)
Theorem points_chart_survives_later_failure (w : world) (predictions : DataFrame) :
  fst (load_predictions w) = Returned predictions ->
  (fs w !! "static" = None -> makedirs_failure w = None) ->
  (forall c,
     In c [ plt_figure 12 6;
            sns_barplot_data "Team" "points" predictions palette;
            plt_title "Predicted IPL 2025 Team Points" 16;
            plt_xticks 45 "right";
            plt_tight_layout;
            plt_savefig "static/team_points.png" ] ->
     plotting_failure w c = None) ->
  fs (snd (index w)) !! team_points_png = Some (Image (team_points_figure predictions)).
Proof.
  intros Hload Hdir Hplt.
  destruct (index_fs w) as (w1 & Hgen & ->).
  replace (fs w1) with (fs (snd (generate_visualizations w))) by now rewrite Hgen.
  rewrite generate_visualizations_fs_body. clear w1 Hgen.
  destruct (directory_step w Hdir) as (wb & (Hrank & _ & Hpf & _) & _ & _ & _ & Hrun).
  destruct (load_predictions_returns wb) as (df & wc & Hpred).
  assert (df = predictions) as ->.
  { pose proof (load_predictions_same_source w wb Hrank) as H.
    rewrite Hpred, Hload in H. cbn [fst] in H. congruence. }
  assert (Hpc : forall c,
            In c [ plt_figure 12 6;
                   sns_barplot_data "Team" "points" predictions palette;
                   plt_title "Predicted IPL 2025 Team Points" 16;
                   plt_xticks 45 "right";
                   plt_tight_layout;
                   plt_savefig "static/team_points.png" ] ->
            plotting_failure wc c = None).
  { intros c Hc. pose proof (load_predictions_inputs wb) as (_ & _ & H & _).
    rewrite Hpred in H. cbn [snd] in H. rewrite H, Hpf. now apply Hplt. }
  assert (Hbody : exists (k : unit -> M unit) w6,
            generate_visualizations_body w = bind (plt plt_close) k w6 /\
            (forall u, keeps team_points_kept (k u)) /\
            fs w6 !! team_points_png = Some (Image (team_points_figure predictions))).
  { eexists _, _. split; [| split].
    - unfold generate_visualizations_body. rewrite Hrun.
      rewrite (bind_eq _ _ _ _ _ Hpred). cbv beta.
      do 6 (erewrite (bind_eq (plt _))
              by (apply plt_ok; rewrite ?draw_plotting; apply Hpc; cbn; auto 10);
            cbv beta).
      reflexivity.
    - intros u. cbv beta. keeps_steps team_points_kept_refl team_points_kept_trans.
    - cbn. apply lookup_insert_eq. }
  destruct Hbody as (k & w6 & -> & Hk & <-).
  apply (keeps_bind team_points_kept team_points_kept_trans);
    [apply plt_team_points_kept; discriminate | exact Hk].
Qed.

Lemma points_chart_survives_later_failure_witness :
  fs (snd (index locked_chart_world)) !! team_points_png =
    Some (Image (team_points_figure
                   (ranking_frame [ ("Mumbai Indians", "Winner", 12);
                                    ("Chennai Super Kings", "Runner-up", 10);
                                    ("Delhi Capitals", "Other", 4) ]))) /\
  fs (snd (index locked_chart_world)) !! feature_importance_png = None.
Proof.
  split; [| vm_compute; reflexivity].
  apply (points_chart_survives_later_failure locked_chart_world).
  - reflexivity.
  - intros _. reflexivity.
  - intros c Hc. cbn in Hc.
    destruct Hc as [<- | [<- | [<- | [<- | [<- | [<- | []]]]]]]; reflexivity.
Defined.

Lemma load_predictions_world w df wc :
  load_predictions w = (Returned df, wc) ->
  figures wc = figures w /\ fs wc = fs w /\ same_inputs w wc.
Proof.
  intros H. destruct (load_predictions_log w) as (out & Hlog).
  destruct (Hlog w eq_refl) as (df' & H'). rewrite H in H'.
  injection H' as _ ->. repeat split.
Qed.

(** [plt.close()] is the last statement of each chart and sits in no
    [finally]: when seaborn rejects the ranking frame, the figure opened for
    the points chart stays open after [generate_visualizations] has caught
    the error, and neither chart image is touched. *)
Theorem failed_barplot_leaves_figure_open
    (w : world) (predictions : DataFrame) (cls : error_class) (msg : string) :
  fst (load_predictions w) = Returned predictions ->
  (fs w !! "static" = None -> makedirs_failure w = None) ->
  plotting_failure w (plt_figure 12 6) = None ->
  plotting_failure w (sns_barplot_data "Team" "points" predictions palette) =
    Some (cls, msg) ->
  figures (snd (generate_visualizations w)) = [] :: figures w /\
  fs (snd (generate_visualizations w)) !! team_points_png = fs w !! team_points_png /\
  fs (snd (generate_visualizations w)) !! feature_importance_png =
    fs w !! feature_importance_png.
Proof.
  intros Hload Hdir Hfig Hbar.
  destruct (directory_step w Hdir)
    as (wb & (Hrank & _ & Hpf & _) & Hfig_b & _ & Hfs_b & Hrun).
  destruct (load_predictions_returns wb) as (df & wc & Hpred).
  assert (df = predictions) as ->.
  { pose proof (load_predictions_same_source w wb Hrank) as H.
    rewrite Hpred, Hload in H. cbn [fst] in H. congruence. }
  destruct (load_predictions_world _ _ _ Hpred) as (Hfig_c & Hfs_c & (_ & _ & Hpf_c & _)).
  assert (Hbody : generate_visualizations_body w =
                    (Raised (error cls msg), draw (plt_figure 12 6) wc)).
  { unfold generate_visualizations_body. rewrite Hrun.
    rewrite (bind_eq _ _ _ _ _ Hpred). cbv beta.
    erewrite (bind_eq (plt _)) by (apply plt_ok; rewrite Hpf_c, Hpf; exact Hfig).
    cbv beta. apply bind_raise, plt_fail.
    rewrite draw_plotting, Hpf_c, Hpf. exact Hbar. }
  unfold generate_visualizations. rewrite (try_caught _ _ _ _ _ _ Hbody).
  cbn. rewrite Hfig_c, Hfig_b, Hfs_c. repeat split; apply Hfs_b; discriminate.
Qed.

Lemma failed_barplot_leaves_figure_open_witness :
  figures (snd (generate_visualizations renamed_columns_world)) =
    [] :: figures renamed_columns_world /\
  fs (snd (generate_visualizations renamed_columns_world)) !! team_points_png =
    fs renamed_columns_world !! team_points_png /\
  fs (snd (generate_visualizations renamed_columns_world)) !! feature_importance_png =
    fs renamed_columns_world !! feature_importance_png.
Proof.
  apply (failed_barplot_leaves_figure_open renamed_columns_world
           (mk_frame ["team"; "result"; "pts"]
              [ [PStr "Mumbai Indians"; PStr "Winner"; PInt 12];
                [PStr "Delhi Capitals"; PStr "Other"; PInt 4] ])
           ValueError "Could not interpret value `Team` for `x`").
  - reflexivity.
  - intros H. vm_compute in H. discriminate H.
  - reflexivity.
  - reflexivity.
Defined.

(** ** Nothing is ever deleted *)

Lemma fs_grows_refl w : fs_grows w w.
Proof. intros path H. exact H. Qed.

Lemma fs_grows_trans a b c : fs_grows a b -> fs_grows b c -> fs_grows a c.
Proof. intros Hab Hbc path H. apply Hbc, Hab, H. Qed.

Lemma same_fs_grows w w' : same_fs w w' -> fs_grows w w'.
Proof. intros H path. now rewrite H. Qed.

Lemma insert_grows (m : gmap string node) k x path :
  is_Some (m !! path) -> is_Some (<[k := x]> m !! path).
Proof.
  intros H. destruct (decide (k = path)) as [-> | Hne].
  - rewrite lookup_insert_eq. eauto.
  - now rewrite lookup_insert_ne.
Qed.

Lemma os_makedirs_grows path : keeps fs_grows (os_makedirs path).
Proof.
  intros w. destruct (os_makedirs_cases path w) as [(c & msg & ->) | (_ & ->)];
    intros p Hp; cbn; [exact Hp | now apply insert_grows].
Qed.

Lemma plt_grows c : keeps fs_grows (plt c).
Proof.
  intros w. destruct (plt_cases c w) as [(cls & msg & ->) | ->]; cbn [snd];
    [apply fs_grows_refl |].
  intros p Hp. destruct c; cbn; try (destruct (figures w); exact Hp).
  now apply insert_grows.
Qed.

Lemma print_grows line : keeps fs_grows (print line).
Proof. intros w p Hp. exact Hp. Qed.

Lemma load_predictions_grows : keeps fs_grows load_predictions.
Proof. apply (keeps_weaken same_fs); [apply same_fs_grows | apply load_predictions_fs]. Qed.

Lemma load_model_metrics_grows : keeps fs_grows load_model_metrics.
Proof. apply (keeps_weaken same_fs); [apply same_fs_grows | apply load_model_metrics_fs]. Qed.

#[local] Hint Resolve fs_grows_refl os_makedirs_grows plt_grows print_grows
  load_predictions_grows load_model_metrics_grows : keeps.

Lemma generate_visualizations_grows : keeps fs_grows generate_visualizations.
Proof.
  unfold generate_visualizations, generate_visualizations_body.
  keeps_steps fs_grows_refl fs_grows_trans.
Qed.

(** No request deletes a file: every path that exists before a dashboard
    request exists after it, also when the rendering fails part way, so the
    chart images of an earlier request stay in place. *)
Theorem dashboard_deletes_nothing (w : world) (path : string) :
  is_Some (fs w !! path) -> is_Some (fs (snd (index w)) !! path).
Proof.
  intros Hp. destruct (index_fs w) as (w1 & Hgen & ->).
  pose proof (generate_visualizations_grows w) as Hg. rewrite Hgen in Hg.
  now apply Hg.
Qed.

Lemma dashboard_deletes_nothing_witness :
  is_Some (fs (snd (index renamed_columns_world)) !! "static").
Proof.
  apply (dashboard_deletes_nothing renamed_columns_world "static").
  vm_compute. eauto.
Defined.

(** ** Start-up *)

(** The [__main__] block creates [static/] outside any [try]: if the
    directory is missing and cannot be created the error leaves the script
    before any chart is drawn, whereas the same failure inside
    [generate_visualizations] is caught. In every other world the start-up
    statements return and [static/] exists afterwards. *)
Theorem main_setup_unguarded (w : world) :
  (forall c msg,
     fs w !! "static" = None -> makedirs_failure w = Some (c, msg) ->
     main_setup w = (Raised (error c msg), w) /\
     exists w', generate_visualizations w = (Returned tt, w')) /\
  (is_Some (fs w !! "static") \/ makedirs_failure w = None ->
   exists w', main_setup w = (Returned tt, w') /\ is_Some (fs w' !! "static")).
Proof.
  split.
  - intros c msg Hst Hmk. split; [| apply generate_visualizations_returns].
    unfold main_setup.
    rewrite (bind_eq (os_path_exists "static") _ w _ w eq_refl). cbv beta.
    rewrite bool_decide_eq_false_2 by (rewrite Hst; now intros [x Hx]). cbn [negb].
    apply bind_raise. unfold os_makedirs. now rewrite Hmk.
  - intros Hok.
    assert (Hdir : fs w !! "static" = None -> makedirs_failure w = None).
    { intros Hnone. destruct Hok as [[x Hx] | Hmk]; [congruence | exact Hmk]. }
    assert (Hstart : exists wb,
              is_Some (fs wb !! "static") /\
              forall k : unit -> M unit,
                bind (os_path_exists "static")
                  (fun present =>
                     bind (if negb present then os_makedirs "static" else ret tt) k) w =
                k tt wb).
    { destruct (fs w !! "static") as [n |] eqn:Hst.
      - exists w. split; [rewrite Hst; eauto |]. intros k.
        rewrite (bind_eq (os_path_exists "static") _ w _ w eq_refl). cbv beta.
        rewrite bool_decide_eq_true_2 by (rewrite Hst; eauto). reflexivity.
      - exists (set_fs (<["static" := Directory]> (fs w)) w).
        split; [cbn; rewrite lookup_insert_eq; eauto |]. intros k.
        rewrite (bind_eq (os_path_exists "static") _ w _ w eq_refl). cbv beta.
        rewrite bool_decide_eq_false_2 by (rewrite Hst; now intros [x Hx]). cbn [negb].
        apply bind_eq, os_makedirs_ok; [exact Hst | now apply Hdir]. }
    destruct Hstart as (wb & Hstatic & Hrun).
    destruct (generate_visualizations_returns wb) as (w' & Hgen).
    exists w'. split.
    + unfold main_setup. rewrite Hrun. exact Hgen.
    + pose proof (generate_visualizations_grows wb) as Hg. rewrite Hgen in Hg.
      now apply Hg.
Qed.

Lemma main_setup_unguarded_witness :
  main_setup read_only_world =
    (Raised (error PermissionError "[Errno 13] Permission denied: 'static'"),
     read_only_world) /\
  (exists w', generate_visualizations read_only_world = (Returned tt, w')) /\
  exists w', main_setup fresh_world = (Returned tt, w') /\ is_Some (fs w' !! "static").
Proof.
  destruct (main_setup_unguarded read_only_world) as (Hcrash & _).
  destruct (main_setup_unguarded fresh_world) as (_ & Hruns).
  destruct (Hcrash PermissionError "[Errno 13] Permission denied: 'static'" eq_refl eq_refl)
    as (H1 & H2).
  split; [exact H1 |]. split; [exact H2 |].
  apply Hruns. right. reflexivity.
Defined.

Lemma load_model_metrics_prints_once_witness :
  snd (load_model_metrics fresh_world) =
    set_stdout
      [ "Error loading model metrics: [Errno 2] No such file or directory: 'model/best_model.pkl'" ]
      fresh_world.
Proof.
  destruct (load_model_metrics_prints_once fresh_world) as (r & w' & Hload & _ & _ & Hfail).
  rewrite Hload. cbn [snd].
  apply (Hfail FileNotFoundError
           "[Errno 2] No such file or directory: 'model/best_model.pkl'").
  reflexivity.
Defined.
